(** * Verification of [service.py]: fetch, aggregate, normalise, synchronise

    A shallow embedding of the four functions of [service.py]
    ([fetch_state_data], [process_and_clean_data], [enviar_dados_para_api]
    and [main]) together with the small part of Python, [requests] and
    [pandas] they rely on.

    - Python values that live in the region dictionaries are [pyval]s, a
      region dictionary is a [gmap string pyval].
    - Exceptions are values of [exn]; a computation is a pair of the events
      it emitted and either a normal result or a raised exception.
    - The outside world (the HTTP server, the CSV parser of pandas, the file
      system and the ingestion API) is a record of oracles, [World].
    - A [DataFrame] is column-major, as in pandas: an association list from
      column labels to series of cells, a cell being a string or missing. *)

From Stdlib Require Import ZArith String Ascii List Lia.
From stdpp Require Import gmap strings list pretty.

Open Scope string_scope.
Open Scope list_scope.

(** ** Python strings *)

(** A string is a sequence of characters with codes below 256. *)

Module Py.

(** [str.isspace] on the code points below 256. *)
Definition isspace (c : ascii) : bool :=
  let n := nat_of_ascii c in
  ((9 <=? n) && (n <=? 13) || (28 <=? n) && (n <=? 32)
   || (n =? 133) || (n =? 160))%nat.

Fixpoint lstrip (s : string) : string :=
  match s with
  | EmptyString => EmptyString
  | String c s' => if isspace c then lstrip s' else s
  end.

Fixpoint rstrip (s : string) : string :=
  match s with
  | EmptyString => EmptyString
  | String c s' =>
      match rstrip s' with
      | EmptyString => if isspace c then EmptyString else String c EmptyString
      | r => String c r
      end
  end.

(** [s.strip()] *)
Definition strip (s : string) : string := rstrip (lstrip s).

(** Truth value of a string: [bool(s)]. *)
Definition truthy (s : string) : bool := negb (String.eqb s EmptyString).

(** [s.replace(old, new)] for a non-empty [old]: scan from the left; at a
    match emit [new] and skip the rest of the match. [skip] counts the
    characters of the current match that are still to be dropped. *)
Fixpoint replace_from (old new s : string) (skip : nat) : string :=
  match s with
  | EmptyString => EmptyString
  | String c s' =>
      match skip with
      | S k => replace_from old new s' k
      | O =>
          if String.prefix old s
          then new +:+ replace_from old new s' (String.length old - 1)
          else String c (replace_from old new s' 0)
      end
  end.

Definition replace (old new s : string) : string := replace_from old new s 0.

(** [s[:n]] *)
Definition slice_to (n : nat) (s : string) : string := substring 0 n s.

(** Number of occurrences of a character. *)
Fixpoint count_char (c : ascii) (s : string) : nat :=
  match s with
  | EmptyString => 0
  | String d s' => (if Ascii.eqb c d then 1 else 0) + count_char c s'
  end.

End Py.

(** ** Python values and exceptions *)

Inductive pyval :=
| PNone
| PInt (z : Z)
| PStr (s : string).

(** [str(v)], as used by f-strings. *)
Definition py_str (v : pyval) : string :=
  match v with
  | PNone => "None"
  | PInt z => pretty z
  | PStr s => s
  end.

(** The exception classes the program can meet. All of them derive from
    [Exception]; the [requests] exceptions derive from [OSError], the pandas
    parser errors from [ValueError]. *)
Inductive exn_class :=
| Exception
| KeyError
| ValueError
| OSError
| RequestException
| HTTPError
| JSONDecodeError
| ParserError
| EmptyDataError.

Definition exn_class_eqb (c d : exn_class) : bool :=
  match c, d with
  | Exception, Exception | KeyError, KeyError | ValueError, ValueError
  | OSError, OSError | RequestException, RequestException
  | HTTPError, HTTPError | JSONDecodeError, JSONDecodeError
  | ParserError, ParserError | EmptyDataError, EmptyDataError => true
  | _, _ => false
  end.

(** The class itself followed by its base classes. *)
Definition mro (c : exn_class) : list exn_class :=
  match c with
  | Exception => [Exception]
  | KeyError => [KeyError; Exception]
  | ValueError => [ValueError; Exception]
  | OSError => [OSError; Exception]
  | RequestException => [RequestException; OSError; Exception]
  | HTTPError => [HTTPError; RequestException; OSError; Exception]
  | JSONDecodeError => [JSONDecodeError; RequestException; OSError; Exception]
  | ParserError => [ParserError; ValueError; Exception]
  | EmptyDataError => [EmptyDataError; ValueError; Exception]
  end.

Definition issubclass (c d : exn_class) : bool :=
  existsb (exn_class_eqb d) (mro c).

(** An exception object: its class, [str(e)], and the [response] attribute
    ([e.response.text] when a response is attached). *)
Record exn := Exn {
  exn_cls : exn_class;
  exn_msg : string;
  exn_response : option string
}.

Definition isinstance (e : exn) (c : exn_class) : bool :=
  issubclass (exn_cls e) c.

Inductive result (A : Type) :=
| Normal (a : A)
| Raise (e : exn).
Arguments Normal {A} a.
Arguments Raise {A} e.

(** ** Computations with a trace *)

(** A computation emits events of type [E] and ends normally or by raising. *)
Definition M (E A : Type) : Type := (list E * result A)%type.

Definition ret {E A} (a : A) : M E A := ([], Normal a).

Definition bind {E A B} (m : M E A) (f : A -> M E B) : M E B :=
  match m with
  | (t, Normal a) => let '(t', r) := f a in (t ++ t', r)
  | (t, Raise e) => (t, Raise e)
  end.

Definition emit {E} (ev : E) : M E unit := ([ev], Normal tt).

Definition raise {E A} (e : exn) : M E A := ([], Raise e).

Definition lift {E A} (r : result A) : M E A := ([], r).

(** [try: m  except ...: h]: [h e] is [None] when no clause matches [e]. *)
Definition try_except {E A} (m : M E A) (h : exn -> option (M E A)) : M E A :=
  match m with
  | (t, Normal a) => (t, Normal a)
  | (t, Raise e) =>
      match h e with
      | Some k => let '(t', r) := k in (t ++ t', r)
      | None => (t, Raise e)
      end
  end.

Definition trace {E A} (m : M E A) : list E := fst m.
Definition outcome {E A} (m : M E A) : result A := snd m.

(** Events of one thread seen as events of another event type. *)
Definition map_events {E F A} (g : E -> F) (m : M E A) : M F A :=
  (map g (fst m), snd m).

Declare Scope py_scope.
Delimit Scope py_scope with py.
Notation "x <- c1 ;; c2" := (bind c1 (fun x => c2))
  (at level 100, c1 at next level, right associativity) : py_scope.
Notation "c1 ;;; c2" := (bind c1 (fun _ => c2))
  (at level 100, right associativity) : py_scope.
Open Scope py_scope.

(** ** The part of pandas the service uses *)

Module Pd.

(** A cell read with [dtype=str] is a string or missing ([NaN]). *)
Definition cell : Type := option string.

(** Column labels: positions after [read_csv(header=None)], names after
    [df.columns = COLUNAS]. *)
Inductive label :=
| LInt (n : nat)
| LStr (s : string).

Definition label_eqb (a b : label) : bool :=
  match a, b with
  | LInt n, LInt m => Nat.eqb n m
  | LStr s, LStr t => String.eqb s t
  | _, _ => false
  end.

Definition label_str (l : label) : string :=
  match l with
  | LInt n => pretty n
  | LStr s => "'" +:+ s +:+ "'"
  end.

Definition Series : Type := list cell.

(** Column-major table: the columns in order, each with its label. *)
Definition DataFrame : Type := list (label * Series).

(** [len(df)]: the number of rows. *)
Definition len (df : DataFrame) : nat :=
  match df with
  | [] => 0
  | (_, s) :: _ => length s
  end.

(** [df.empty]: some axis has length 0. *)
Definition empty (df : DataFrame) : bool :=
  Nat.eqb (length df) 0 || Nat.eqb (len df) 0.

(** Every column has [len df] cells. *)
Definition rectangular (df : DataFrame) : bool :=
  forallb (fun c => Nat.eqb (length (snd c)) (len df)) df.

Definition lookup_col (l : label) (df : DataFrame) : option Series :=
  match List.find (fun c => label_eqb l (fst c)) df with
  | Some c => Some (snd c)
  | None => None
  end.

(** [df[l]] *)
Definition getitem (l : label) (df : DataFrame) : result Series :=
  match lookup_col l df with
  | Some s => Normal s
  | None => Raise (Exn KeyError (label_str l) None)
  end.

(** [df[l] = s]: replaces the column in place, or appends a new last one. *)
Fixpoint setitem (l : label) (s : Series) (df : DataFrame) : DataFrame :=
  match df with
  | [] => [(l, s)]
  | (l', s') :: df' =>
      if label_eqb l l' then (l, s) :: df' else (l', s') :: setitem l s df'
  end.

(** [df.columns = names] *)
Definition set_columns (names : list label) (df : DataFrame) : result DataFrame :=
  if Nat.eqb (length names) (length df)
  then Normal (combine names (map snd df))
  else Raise (Exn ValueError
                ("Length mismatch: Expected axis has " +:+ pretty (length df)
                 +:+ " elements, new values have " +:+ pretty (length names)
                 +:+ " elements") None).

(** [s.fillna(v)] *)
Definition fillna (v : string) (s : Series) : Series :=
  map (fun c => match c with None => Some v | Some _ => c end) s.

(** [s.replace(olds, v)] with a list of values to replace and one new value *)
Definition replace_values (olds : list string) (v : string) (s : Series) : Series :=
  map (fun c => match c with
                | Some x => if existsb (String.eqb x) olds then Some v else c
                | None => None
                end) s.

(** [s.str.replace(old, new, regex=False)]: missing cells stay missing. *)
Definition str_replace (old new : string) (s : Series) : Series :=
  map (option_map (Py.replace old new)) s.

(** [s.str[:n]] *)
Definition str_slice_to (n : nat) (s : Series) : Series :=
  map (option_map (Py.slice_to n)) s.

(** Labels in order of first appearance. *)
Fixpoint dedup (ls : list label) : list label :=
  match ls with
  | [] => []
  | l :: ls' => l :: List.filter (fun l' => negb (label_eqb l l')) (dedup ls')
  end.

Definition union_labels (dfs : list DataFrame) : list label :=
  dedup (flat_map (map fst) dfs).

(** The column [l] of [df], or [len df] missing cells when [df] has none. *)
Definition column_or_nan (l : label) (df : DataFrame) : Series :=
  match lookup_col l df with
  | Some s => s
  | None => List.repeat None (len df)
  end.

(** [pd.concat(dfs, ignore_index=True)]: the union of the columns, the
    frames stacked in the order of [dfs], missing cells where a frame has no
    such column. *)
Definition concat (dfs : list DataFrame) : result DataFrame :=
  match dfs with
  | [] => Raise (Exn ValueError "No objects to concatenate" None)
  | _ => Normal (map (fun l => (l, flat_map (column_or_nan l) dfs))
                     (union_labels dfs))
  end.

(** The row at position [i], as a dictionary in column order. *)
Definition row_at (i : nat) (df : DataFrame) : list (label * cell) :=
  map (fun c => (fst c, nth i (snd c) None)) df.

(** [r[l]] on one record of [to_dict(orient='records')]. *)
Definition field (l : label) (r : list (label * cell)) : option cell :=
  match List.find (fun c => label_eqb l (fst c)) r with
  | Some c => Some (snd c)
  | None => None
  end.

(** [df.reindex(columns=labels)] *)
Definition reindex (labels : list label) (df : DataFrame) : DataFrame :=
  map (fun l => (l, column_or_nan l df)) labels.

(** [df.to_dict(orient='records')] *)
Definition to_dict_records (df : DataFrame) : list (list (label * cell)) :=
  map (fun i => row_at i df) (seq 0 (len df)).

End Pd.

Import Pd.

(** ** The outside world *)

Inductive level := INFO | WARNING | ERROR.

(** What [requests.get] / [requests.post] does: raise, or return a response
    with a status code and a body. *)
Inductive http_outcome :=
| HttpRaises (e : exn)
| HttpResponse (status : Z) (text : string).

Record World := {
  (** [requests.get(url, params={idTabela, idPacote}, timeout)] *)
  requests_get : string -> pyval -> pyval -> Z -> http_outcome;
  (** [pd.read_csv(io.StringIO(text), sep='|', encoding='cp1252',
      skiprows=1, header=None, dtype=str)] *)
  read_csv : string -> result DataFrame;
  (** [df.to_csv(path, index=False, encoding='utf-8-sig')]: the exception
      raised, if any *)
  to_csv : string -> DataFrame -> option exn;
  (** [requests.post(url, json=payload, headers, timeout)] *)
  requests_post : string -> list (list (label * cell)) -> Z -> http_outcome;
  (** [response.json()], rendered as the f-string renders it *)
  response_json : string -> result string;
  (** The schedule of the thread pool: whether the task at a position of the
      queue had started when the consumer of the results met an exception *)
  pool_started : nat -> bool
}.

(** Observable events of one thread, each with what the world answered. *)
Inductive event :=
| Log (lv : level) (msg : string)
| Get (url : string) (idTabela idPacote : pyval) (timeout : Z) (out : http_outcome)
| ToCsv (path : string) (df : DataFrame) (err : option exn)
| Post (url : string) (payload : list (list (label * cell))) (timeout : Z)
       (out : http_outcome).

(** Events of the main thread: its own, and the block in which the thread
    pool ran, holding the events of each task that ran, in task order. How
    the tasks interleave in time is not modelled; no claim depends on it. *)
Inductive mevent :=
| Main (e : event)
| Pool (tasks : list (list event)).

(** ** The service *)

Definition BASE_URL : string :=
  "https://www.sped.fazenda.gov.br/spedtabelas/appconsulta/obterTabelaExterna.aspx".
Definition API_URL : string :=
  "http://localhost:8080/codigos-ajustes-apuracao/sincronizar".
Definition OUTPUT_FILENAME : string := "codigos_ajustes_apuracao_final.csv".

Definition DEFAULT_DATA_FIM : string := "31129999".
Definition COLUNAS : list label :=
  [LStr "cod_aj_apur"; LStr "descricao"; LStr "data_inicio"; LStr "data_fim"].

Definition REQUEST_TIMEOUT : Z := 30.

(** A region dictionary. *)
Definition mk_estado (idPacote : Z) (UF : string) (idTabela : pyval)
  : gmap string pyval :=
  {[ "idPacote" := PInt idPacote; "UF" := PStr UF; "idTabela" := idTabela ]}.

Definition DADOS_ESTADUAIS : list (gmap string pyval) := [
  mk_estado 11 "Bahia" (PInt 190);
  mk_estado 21 "Paraiba" (PInt 46);
  mk_estado 8 "Alagoas" (PInt 33);
  mk_estado 15 "Goias" (PInt 37);
  mk_estado 19 "Minas Gerais" (PInt 43);
  mk_estado 22 "Pernambuco" (PInt 212);
  mk_estado 29 "Rondonia" (PInt 53);
  mk_estado 28 "Roraima" PNone;
  mk_estado 30 "Santa Catarina" (PInt 54);
  mk_estado 31 "Sao Paulo" (PInt 247);
  mk_estado 32 "Sergipe" (PInt 56);
  mk_estado 33 "Tocantins" (PInt 59);
  mk_estado 7 "Acre" (PInt 727);
  mk_estado 10 "Amapa" (PInt 842);
  mk_estado 9 "Amazonas" (PInt 220);
  mk_estado 12 "Ceara" (PInt 36);
  mk_estado 13 "Distrito Federal" (PInt 838);
  mk_estado 14 "Espirito Santo" (PInt 171);
  mk_estado 16 "Maranhao" (PInt 122);
  mk_estado 17 "Mato Grosso" (PInt 131);
  mk_estado 18 "Mato Grosso do Sul" (PInt 42);
  mk_estado 20 "Para" (PInt 123);
  mk_estado 23 "Parana" (PInt 50);
  mk_estado 24 "Piaui" (PInt 127);
  mk_estado 25 "Rio de Janeiro" (PInt 52);
  mk_estado 26 "Rio Grande do Norte" (PInt 126);
  mk_estado 27 "Rio Grande do Sul" (PInt 173)
].

Definition is_none (v : pyval) : bool :=
  match v with PNone => true | _ => false end.

(** [estado[k]] *)
Definition subscript {E} (estado : gmap string pyval) (k : string) : M E pyval :=
  match estado !! k with
  | Some v => ret v
  | None => raise (Exn KeyError ("'" +:+ k +:+ "'") None)
  end.

(** [response.raise_for_status()]: raises [HTTPError], with the response
    attached, for a 4xx or 5xx status. The message is abridged. *)
Definition raise_for_status {E} (status : Z) (text : string) : M E unit :=
  if (400 <=? status)%Z && (status <? 600)%Z
  then raise (Exn HTTPError (pretty status +:+ " Error") (Some text))
  else ret tt.

(** A call of [requests.get] or [requests.post]: the event [ev] records the
    call and its outcome. *)
Definition http_call (ev : http_outcome -> event) (out : http_outcome)
  : M event (Z * string) :=
  emit (ev out) ;;;
  match out with
  | HttpRaises e => raise e
  | HttpResponse status text => ret (status, text)
  end.

Definition logging (lv : level) (msg : string) : M event unit :=
  emit (Log lv msg).

Definition fetch_state_data (w : World) (estado : gmap string pyval)
  : M event (option DataFrame) :=
  let id_tabela := default PNone (estado !! "idTabela") in
  let uf_nome := py_str (default (PStr "Desconhecido") (estado !! "UF")) in
  if is_none id_tabela then
    logging WARNING ("Ignorando " +:+ uf_nome +:+ " (sem idTabela)") ;;;
    ret None
  else
    id_pacote <- subscript estado "idPacote" ;;
    try_except
      (response <- http_call (Get BASE_URL id_tabela id_pacote REQUEST_TIMEOUT)
                     (requests_get w BASE_URL id_tabela id_pacote REQUEST_TIMEOUT) ;;
       raise_for_status (fst response) (snd response) ;;;
       if negb (Py.truthy (Py.strip (snd response))) then
         logging WARNING ("Recebida resposta vazia para " +:+ uf_nome +:+ ".") ;;;
         ret None
       else
         df <- lift (read_csv w (snd response)) ;;
         logging INFO ("✅ Sucesso ao processar: " +:+ uf_nome) ;;;
         ret (Some df))
      (fun e =>
         if isinstance e RequestException then
           Some (logging ERROR ("❌ Erro de rede ao buscar dados para "
                                +:+ uf_nome +:+ ": " +:+ exn_msg e) ;;;
                 ret None)
         else if isinstance e ParserError then
           Some (logging ERROR ("❌ Erro de parsing do CSV para "
                                +:+ uf_nome +:+ ": " +:+ exn_msg e) ;;;
                 ret None)
         else if isinstance e Exception then
           Some (logging ERROR ("❌ Erro inesperado em "
                                +:+ uf_nome +:+ ": " +:+ exn_msg e) ;;;
                 ret None)
         else None).

(** The frame is changed in place and returned; the model returns the new
    value of the one object. *)
Definition process_and_clean_data (df : DataFrame) : M event DataFrame :=
  logging INFO "Aplicando transformações e limpeza nos dados..." ;;;
  df <- lift (set_columns COLUNAS df) ;;
  data_fim <- lift (getitem (LStr "data_fim") df) ;;
  let df := setitem (LStr "data_fim")
              (replace_values ["nan"; "NaN"; EmptyString] DEFAULT_DATA_FIM
                 (fillna DEFAULT_DATA_FIM data_fim)) df in
  descricao <- lift (getitem (LStr "descricao") df) ;;
  let df := setitem (LStr "descricao") (str_replace "'" "''" descricao) df in
  cod_aj_apur <- lift (getitem (LStr "cod_aj_apur") df) ;;
  let df := setitem (LStr "uf") (str_slice_to 2 cod_aj_apur) df in
  ret df.

Definition enviar_dados_para_api (w : World) (df : DataFrame) : M event unit :=
  if empty df then
    logging WARNING "DataFrame está vazio. Nenhum dado para enviar à API."
  else
    logging INFO ("Preparando para enviar " +:+ pretty (len df)
                  +:+ " registros para a API em " +:+ API_URL +:+ "...") ;;;
    let payload := to_dict_records df in
    try_except
      (response <- http_call (Post API_URL payload 120)
                     (requests_post w API_URL payload 120) ;;
       raise_for_status (fst response) (snd response) ;;;
       resultado <- lift (response_json w (snd response)) ;;
       logging INFO ("✅ Sucesso! Resposta da API: " +:+ resultado))
      (fun e =>
         if isinstance e RequestException then
           Some (logging ERROR ("❌ Erro ao enviar dados para a API: " +:+ exn_msg e) ;;;
                 match exn_response e with
                 | Some text => logging ERROR ("Detalhes da resposta: " +:+ text)
                 | None => ret tt
                 end)
         else None).

(** The tasks of [xs] that had started: each runs to its end, the others are
    cancelled and leave no event. [started n] speaks of the task at position
    [n] of [xs]. *)
Fixpoint started_tasks {A B} (f : A -> M event B) (started : nat -> bool)
    (xs : list A) : list (list event) :=
  match xs with
  | [] => []
  | x :: xs' =>
      (if started 0 then [fst (f x)] else [])
      ++ started_tasks f (fun n => started (S n)) xs'
  end.

(** [executor.map(f, xs)] consumed in order. Every task is submitted before
    a result is consumed, and the results come in the order of [xs]. The
    first task that raised re-raises when its result is reached: no result
    after it is consumed, the tasks after it that had not started are
    cancelled, and those that had started run to their end before the
    [with] block is left. *)
Fixpoint run_tasks {A B} (f : A -> M event B) (started : nat -> bool)
    (xs : list A) : list (list event) * result (list B) :=
  match xs with
  | [] => ([], Normal [])
  | x :: xs' =>
      match f x with
      | (t, Raise e) =>
          (t :: started_tasks f (fun n => started (S n)) xs', Raise e)
      | (t, Normal b) =>
          let '(ts, r) := run_tasks f (fun n => started (S n)) xs' in
          (t :: ts, match r with
                    | Normal bs => Normal (b :: bs)
                    | Raise e => Raise e
                    end)
      end
  end.

Definition executor_map {A B} (f : A -> M event B) (started : nat -> bool)
    (xs : list A) : M mevent (list B) :=
  let '(ts, r) := run_tasks f started xs in ([Pool ts], r).

(** [[df for df in results if df is not None and not df.empty]] *)
Definition keep_non_empty (results : list (option DataFrame)) : list DataFrame :=
  flat_map (fun r => match r with
                     | Some df => if empty df then [] else [df]
                     | None => []
                     end) results.

Definition in_main {A} (m : M event A) : M mevent A := map_events Main m.

Definition df_to_csv (w : World) (path : string) (df : DataFrame) : M event unit :=
  emit (ToCsv path df (to_csv w path df)) ;;;
  match to_csv w path df with
  | Some e => raise e
  | None => ret tt
  end.

(** [main] over an explicit catalogue. *)
Definition main_on (catalogue : list (gmap string pyval)) (w : World)
  : M mevent unit :=
  in_main (logging INFO "Iniciando o processo de extração de dados estaduais...") ;;;
  results <- executor_map (fetch_state_data w) (pool_started w) catalogue ;;
  let all_dfs := keep_non_empty results in
  if Nat.eqb (length all_dfs) 0 then
    in_main (logging WARNING "Nenhum dado foi baixado. Encerrando o processo.")
  else
    in_main (logging INFO "Consolidando todos os DataFrames...") ;;;
    df_final <- lift (concat all_dfs) ;;
    df_final <- in_main (process_and_clean_data df_final) ;;
    in_main (df_to_csv w OUTPUT_FILENAME df_final) ;;;
    in_main (logging INFO ("Arquivo final salvo em: " +:+ OUTPUT_FILENAME)) ;;;
    in_main (enviar_dados_para_api w df_final) ;;;
    in_main (logging INFO "🎉 Processo concluído!").

Definition main (w : World) : M mevent unit := main_on DADOS_ESTADUAIS w.

(** ** Vocabulary of the properties *)

(** A region dictionary with the three fields of a region descriptor: a
    name, a package id, and a table id that may be absent. *)
Definition RegionDescriptor (estado : gmap string pyval) : bool :=
  match estado !! "UF", estado !! "idPacote", estado !! "idTabela" with
  | Some (PStr _), Some (PInt _), (None | Some PNone | Some (PInt _)) => true
  | _, _, _ => false
  end.

(** All events of a run, those of the pool tasks included. *)
Definition events_of (t : list mevent) : list event :=
  flat_map (fun me => match me with
                      | Main e => [e]
                      | Pool tasks => List.concat tasks
                      end) t.

Definition is_Log (e : event) : bool :=
  match e with Log _ _ => true | _ => false end.
Definition is_Get (e : event) : bool :=
  match e with Get _ _ _ _ _ => true | _ => false end.
Definition is_ToCsv (e : event) : bool :=
  match e with ToCsv _ _ _ => true | _ => false end.
Definition is_Post (e : event) : bool :=
  match e with Post _ _ _ _ => true | _ => false end.
Definition is_error_log (e : event) : bool :=
  match e with Log ERROR _ => true | _ => false end.

(** The tables handed to the snapshot writer during a run. *)
Definition final_tables (t : list mevent) : list DataFrame :=
  flat_map (fun me => match me with
                      | Main (ToCsv _ df _) => [df]
                      | _ => []
                      end) t.


(** The table a region's fetch produced, if it produced one. *)
Definition parsed (w : World) (estado : gmap string pyval) : option DataFrame :=
  match outcome (fetch_state_data w estado) with
  | Normal (Some df) => Some df
  | _ => None
  end.

(** The region has a table id. *)
Definition has_table (estado : gmap string pyval) : bool :=
  negb (is_none (default PNone (estado !! "idTabela"))).


(** Rows successfully parsed for a region. *)
Definition rows_parsed (w : World) (estado : gmap string pyval) : nat :=
  match parsed w estado with
  | Some df => len df
  | None => 0
  end.

(** The tables of the regions that succeeded with a non-empty table, in the
    order of the catalogue. *)
Definition successes (w : World) (catalogue : list (gmap string pyval))
  : list DataFrame :=
  flat_map (fun estado => match parsed w estado with
                          | Some df => if empty df then [] else [df]
                          | None => []
                          end) catalogue.

(** What [fillna] followed by [replace] does to one cell of [data_fim]. *)
Definition clean_cell (c : cell) : cell :=
  match c with
  | None => Some DEFAULT_DATA_FIM
  | Some x => if existsb (String.eqb x) ["nan"; "NaN"; EmptyString]
              then Some DEFAULT_DATA_FIM else Some x
  end.

(** A cell without a single quote. *)
Definition quote_free (c : cell) : Prop :=
  forall s, c = Some s -> Py.count_char "'" s = 0.

(** The log lines of [main]. *)
Definition ev_iniciando : mevent :=
  Main (Log INFO "Iniciando o processo de extração de dados estaduais...").
Definition ev_nenhum : mevent :=
  Main (Log WARNING "Nenhum dado foi baixado. Encerrando o processo.").
Definition ev_consolidando : mevent :=
  Main (Log INFO "Consolidando todos os DataFrames...").
Definition ev_aplicando : mevent :=
  Main (Log INFO "Aplicando transformações e limpeza nos dados...").
Definition ev_salvo : mevent :=
  Main (Log INFO ("Arquivo final salvo em: " +:+ OUTPUT_FILENAME)).
Definition ev_concluido : mevent := Main (Log INFO "🎉 Processo concluído!").

(** Events a pool task can emit: log lines and the GET request. *)
Definition worker_event (e : event) : bool := is_Log e || is_Get e.

(** The part of [main] below the emptiness check, for the tables [all_dfs]
    that were kept. *)
Definition main_after_fetch (w : World) (all_dfs : list DataFrame)
  : M mevent unit :=
  in_main (logging INFO "Consolidando todos os DataFrames...") ;;;
  df_final <- lift (concat all_dfs) ;;
  df_final <- in_main (process_and_clean_data df_final) ;;
  in_main (df_to_csv w OUTPUT_FILENAME df_final) ;;;
  in_main (logging INFO ("Arquivo final salvo em: " +:+ OUTPUT_FILENAME)) ;;;
  in_main (enviar_dados_para_api w df_final) ;;;
  in_main (logging INFO "🎉 Processo concluído!").

(** The parser only returns tables whose columns all have the same length. *)
Definition parser_rectangular (w : World) : Prop :=
  forall text df, read_csv w text = Normal df -> rectangular df = true.

(** ** Sample worlds and tables *)

Module Sample.

(** Three regions: one answers with a banner and two data rows, one has no
    [idTabela], one answers with an empty body. *)
Definition region_a : gmap string pyval := mk_estado 1 "Region A" (PInt 100).
Definition region_b : gmap string pyval := mk_estado 2 "Region B" PNone.
Definition region_c : gmap string pyval := mk_estado 3 "Region C" (PInt 300).
Definition catalogue : list (gmap string pyval) := [region_a; region_b; region_c].

Definition body_a : string :=
  "versao=1" +:+ String "010" "AC000001|Credito 'especial'|01012020|"
  +:+ String "010" "A|Outros debitos|01012021|31122021" +:+ String "010" EmptyString.

Definition table_a : DataFrame := [
  (LInt 0, [Some "AC000001"; Some "A"]);
  (LInt 1, [Some "Credito 'especial'"; Some "Outros debitos"]);
  (LInt 2, [Some "01012020"; Some "01012021"]);
  (LInt 3, [None; Some "31122021"])
].

Definition get (url : string) (idTabela idPacote : pyval) (timeout : Z)
  : http_outcome :=
  match idTabela with
  | PInt 100 => HttpResponse 200 body_a
  | PInt 300 => HttpResponse 200 "  "
  | _ => HttpResponse 404 "not found"
  end.

Definition parse (text : string) : result DataFrame :=
  if String.eqb text body_a then Normal table_a
  else Raise (Exn EmptyDataError "No columns to parse from file" None).

Definition world (write : option exn) (post : http_outcome) : World := {|
  requests_get := get;
  read_csv := parse;
  to_csv := fun _ _ => write;
  requests_post := fun _ _ _ => post;
  response_json := fun text => Normal text;
  pool_started := fun _ => true
|}.

(** [table_a] after normalisation. *)
Definition normalized_a : DataFrame := [
  (LStr "cod_aj_apur", [Some "AC000001"; Some "A"]);
  (LStr "descricao", [Some "Credito ''especial''"; Some "Outros debitos"]);
  (LStr "data_inicio", [Some "01012020"; Some "01012021"]);
  (LStr "data_fim", [Some "31129999"; Some "31122021"]);
  (LStr "uf", [Some "AC"; Some "A"])
].

Definition disk_full : exn :=
  Exn OSError "[Errno 28] No space left on device" None.

(** Everything works. *)
Definition world_ok : World := world None (HttpResponse 200 "{'ok': True}").

(** The ingestion API answers 500. *)
Definition world_post_500 : World := world None (HttpResponse 500 "boom").

(** The snapshot cannot be written. *)
Definition world_disk_full : World :=
  world (Some disk_full) (HttpResponse 200 "{'ok': True}").

(** No region answers. *)
Definition world_down : World := {|
  requests_get := fun _ _ _ _ =>
    HttpRaises (Exn RequestException "connection refused" None);
  read_csv := parse;
  to_csv := fun _ _ => None;
  requests_post := fun _ _ _ => HttpResponse 200 "{}";
  response_json := fun text => Normal text;
  pool_started := fun _ => true
|}.

End Sample.

(** ** Further vocabulary *)

(** The columns of a normalised table. *)
Definition NORMALIZED_COLUMNS : list label :=
  [LStr "cod_aj_apur"; LStr "descricao"; LStr "data_inicio"; LStr "data_fim";
   LStr "uf"].

(** Every character is white space. *)
Fixpoint all_space (s : string) : bool :=
  match s with
  | EmptyString => true
  | String c s' => Py.isspace c && all_space s'
  end.

(** The name the fetcher logs for a region, and the table id it tests. *)
Definition uf_nome (estado : gmap string pyval) : string :=
  py_str (default (PStr "Desconhecido") (estado !! "UF")).
Definition id_tabela (estado : gmap string pyval) : pyval :=
  default PNone (estado !! "idTabela").

(** The GET request the fetcher sends for a region whose package id is
    [id_pacote], with the answer of the world. *)
Definition fetch_request (w : World) (estado : gmap string pyval)
    (id_pacote : pyval) : event :=
  Get BASE_URL (id_tabela estado) id_pacote REQUEST_TIMEOUT
      (requests_get w BASE_URL (id_tabela estado) id_pacote REQUEST_TIMEOUT).

(** The POST request the synchroniser sends for a table. *)
Definition sync_request (w : World) (df : DataFrame) : event :=
  Post API_URL (to_dict_records df) 120
       (requests_post w API_URL (to_dict_records df) 120).

(** A 4xx or 5xx status. *)
Definition error_status (status : Z) : bool :=
  (400 <=? status)%Z && (status <? 600)%Z.

(** How the fetcher's log line for an exception of class [c] starts. *)
Definition fetch_error_prefix (c : exn_class) : string :=
  match c with
  | RequestException | HTTPError | JSONDecodeError =>
      "❌ Erro de rede ao buscar dados para "
  | ParserError => "❌ Erro de parsing do CSV para "
  | _ => "❌ Erro inesperado em "
  end.

(** More sample worlds. *)
Module Sample2.

(** A table with five columns. *)
Definition table_wide : DataFrame := [
  (LInt 0, [Some "BA000001"]);
  (LInt 1, [Some "Estorno"]);
  (LInt 2, [Some "01012020"]);
  (LInt 3, [None]);
  (LInt 4, [Some "extra"])
].

Definition body_wide : string :=
  "versao=1" +:+ String "010" "BA000001|Estorno|01012020||extra"
  +:+ String "010" EmptyString.

Definition parse (text : string) : result DataFrame :=
  if String.eqb text Sample.body_a then Normal Sample.table_a
  else if String.eqb text body_wide then Normal table_wide
  else Raise (Exn EmptyDataError "No columns to parse from file" None).

(** Region C answers with five columns. *)
Definition world_wide : World := {|
  requests_get := fun _ idTabela _ _ =>
    match idTabela with
    | PInt 100 => HttpResponse 200 Sample.body_a
    | _ => HttpResponse 200 body_wide
    end;
  read_csv := parse;
  to_csv := fun _ _ => None;
  requests_post := fun _ _ _ => HttpResponse 200 "{}";
  response_json := fun text => Normal text;
  pool_started := fun _ => true
|}.

(** Every GET is answered with [status] and [text]. *)
Definition world_status (status : Z) (text : string) : World := {|
  requests_get := fun _ _ _ _ => HttpResponse status text;
  read_csv := parse;
  to_csv := fun _ _ => None;
  requests_post := fun _ _ _ => HttpResponse 200 "{}";
  response_json := fun text => Normal text;
  pool_started := fun _ => true
|}.

(** The parser raises [e] on every body. *)
Definition world_parse_raises (e : exn) : World := {|
  requests_get := fun _ _ _ _ => HttpResponse 200 "versao=1";
  read_csv := fun _ => Raise e;
  to_csv := fun _ _ => None;
  requests_post := fun _ _ _ => HttpResponse 200 "{}";
  response_json := fun text => Normal text;
  pool_started := fun _ => true
|}.

Definition not_json : exn := Exn ValueError "Expecting value: line 1 column 1 (char 0)" None.

(** The ingestion API answers 200 with a body that is not JSON, and
    [response.json()] raises a plain [ValueError]. *)
Definition world_not_json : World := {|
  requests_get := Sample.get;
  read_csv := Sample.parse;
  to_csv := fun _ _ => None;
  requests_post := fun _ _ _ => HttpResponse 200 "<html>";
  response_json := fun _ => Raise not_json;
  pool_started := fun _ => true
|}.

(** A dictionary with a table id and no package id. *)
Definition region_no_pacote : gmap string pyval :=
  {[ "UF" := PStr "Region D"; "idTabela" := PInt 400 ]}.

Definition catalogue_bad : list (gmap string pyval) :=
  [Sample.region_a; region_no_pacote; Sample.region_c].

End Sample2.

(** Two regions with data, and the schedules of the pool. *)
Module Sample3.

Definition region_d : gmap string pyval := mk_estado 4 "Region D" (PInt 400).

(** Region A first and region D last, and the other way round. *)
Definition catalogue : list (gmap string pyval) :=
  [Sample.region_a; Sample.region_b; region_d].
Definition catalogue_rev : list (gmap string pyval) :=
  [region_d; Sample.region_b; Sample.region_a].

Definition body_d : string :=
  "versao=1" +:+ String "010" "DF000009|Estorno de debito|01072022|30062023"
  +:+ String "010" EmptyString.

Definition table_d : DataFrame := [
  (LInt 0, [Some "DF000009"]);
  (LInt 1, [Some "Estorno de debito"]);
  (LInt 2, [Some "01072022"]);
  (LInt 3, [Some "30062023"])
].

Definition get (url : string) (idTabela idPacote : pyval) (timeout : Z)
  : http_outcome :=
  match idTabela with
  | PInt 100 => HttpResponse 200 Sample.body_a
  | PInt 400 => HttpResponse 200 body_d
  | _ => HttpResponse 404 "not found"
  end.

Definition parse (text : string) : result DataFrame :=
  if String.eqb text Sample.body_a then Normal Sample.table_a
  else if String.eqb text body_d then Normal table_d
  else Raise (Exn EmptyDataError "No columns to parse from file" None).

Definition world (post : http_outcome) (started : nat -> bool) : World := {|
  requests_get := get;
  read_csv := parse;
  to_csv := fun _ _ => None;
  requests_post := fun _ _ _ => post;
  response_json := fun text => Normal text;
  pool_started := started
|}.

(** Everything works. *)
Definition world_ok : World :=
  world (HttpResponse 200 "{'ok': True}") (fun _ => true).

(** The ingestion API answers 500, and the pool follows another schedule. *)
Definition world_post_500 : World :=
  world (HttpResponse 500 "boom") (fun _ => false).

(** The rows of region A, then the row of region D. *)
Definition normalized_ad : DataFrame := [
  (LStr "cod_aj_apur", [Some "AC000001"; Some "A"; Some "DF000009"]);
  (LStr "descricao", [Some "Credito ''especial''"; Some "Outros debitos";
                      Some "Estorno de debito"]);
  (LStr "data_inicio", [Some "01012020"; Some "01012021"; Some "01072022"]);
  (LStr "data_fim", [Some "31129999"; Some "31122021"; Some "30062023"]);
  (LStr "uf", [Some "AC"; Some "A"; Some "DF"])
].

(** The row of region D, then the rows of region A. *)
Definition normalized_da : DataFrame := [
  (LStr "cod_aj_apur", [Some "DF000009"; Some "AC000001"; Some "A"]);
  (LStr "descricao", [Some "Estorno de debito"; Some "Credito ''especial''";
                      Some "Outros debitos"]);
  (LStr "data_inicio", [Some "01072022"; Some "01012020"; Some "01012021"]);
  (LStr "data_fim", [Some "30062023"; Some "31129999"; Some "31122021"]);
  (LStr "uf", [Some "DF"; Some "AC"; Some "A"])
].

(** A catalogue whose second entry has no package id, between two regions
    that answer. *)
Definition catalogue_bad : list (gmap string pyval) :=
  [Sample.region_a; Sample2.region_no_pacote; region_d].

End Sample3.

(** Splits a membership in an explicit list into its cases and drops the
    cases that equate different constructors. *)
Ltac in_head H :=
  cbn [In] in H;
  repeat (destruct H as [H|H]; [try discriminate H|]).

(** Closes a goal that asks for a 4xx/5xx status when the range test [S] on
    that status is false. *)
Ltac status_absurd S :=
  let st := fresh "st" in
  let tx := fresh "tx" in
  let R := fresh "R" in
  intros st tx [= <- <-] R; exfalso;
  apply andb_false_iff in S; destruct S as [S|S];
  [apply Z.leb_gt in S|apply Z.ltb_ge in S]; lia.

(** ** Checks on concrete inputs *)

Example strip_blank : Py.strip (String "009" " " +:+ String "010" " ") = EmptyString.
Proof. reflexivity. Qed.

Example strip_inner : Py.strip "  a b  " = "a b".
Proof. reflexivity. Qed.

Example replace_quotes : Py.replace "'" "''" "d'agua 'x'" = "d''agua ''x''".
Proof. reflexivity. Qed.

Example replace_word : Py.replace "ab" "X" "aababab" = "aXXX".
Proof. reflexivity. Qed.

Example slice_short : Py.slice_to 2 "A" = "A" /\ Py.slice_to 2 "AC000001" = "AC".
Proof. split; reflexivity. Qed.

Example HTTPError_is_RequestException :
  issubclass HTTPError RequestException = true /\
  issubclass ParserError RequestException = false /\
  issubclass KeyError Exception = true.
Proof. repeat split; reflexivity. Qed.

Example normalise_table_a :
  process_and_clean_data Sample.table_a =
  ([Log INFO "Aplicando transformações e limpeza nos dados..."],
   Normal Sample.normalized_a).
Proof. reflexivity. Qed.

Example concat_pads_missing_columns :
  concat [[(LInt 0, [Some "a"])]; [(LInt 0, [Some "b"]); (LInt 1, [Some "c"])]] =
  Normal [(LInt 0, [Some "a"; Some "b"]); (LInt 1, [None; Some "c"])].
Proof. reflexivity. Qed.

(** The scenario of three regions: one success with two rows, one skip, one
    empty answer; two records are written and sent. *)
Example three_regions :
  exists get_a get_c,
    main_on Sample.catalogue Sample.world_ok =
    ([ev_iniciando;
      Pool [[get_a; Log INFO "✅ Sucesso ao processar: Region A"];
            [Log WARNING "Ignorando Region B (sem idTabela)"];
            [get_c; Log WARNING "Recebida resposta vazia para Region C."]];
      ev_consolidando; ev_aplicando;
      Main (ToCsv OUTPUT_FILENAME Sample.normalized_a None);
      ev_salvo;
      Main (Log INFO ("Preparando para enviar 2 registros para a API em "
                      +:+ API_URL +:+ "..."));
      Main (Post API_URL (to_dict_records Sample.normalized_a) 120
              (HttpResponse 200 "{'ok': True}"));
      Main (Log INFO "✅ Sucesso! Resposta da API: {'ok': True}");
      ev_concluido],
     Normal tt) /\
    length (to_dict_records Sample.normalized_a) = 2.
Proof. do 2 eexists. split; vm_compute; reflexivity. Qed.

(** The pool when the second of three tasks raises: the first task ran, the
    second left no event, and the third ran when the schedule had started it
    and was cancelled otherwise. Either way the run ends there. *)
Example pool_raise_started :
  exists get_a get_d,
    main_on Sample3.catalogue_bad Sample3.world_ok =
    ([ev_iniciando;
      Pool [[get_a; Log INFO "✅ Sucesso ao processar: Region A"];
            [];
            [get_d; Log INFO "✅ Sucesso ao processar: Region D"]]],
     Raise (Exn KeyError "'idPacote'" None)).
Proof. do 2 eexists. vm_compute. reflexivity. Qed.

Example pool_raise_cancelled :
  exists get_a,
    main_on Sample3.catalogue_bad Sample3.world_post_500 =
    ([ev_iniciando;
      Pool [[get_a; Log INFO "✅ Sucesso ao processar: Region A"]; []]],
     Raise (Exn KeyError "'idPacote'" None)).
Proof. eexists. vm_compute. reflexivity. Qed.

Example two_regions_merged :
  successes Sample3.world_ok Sample3.catalogue = [Sample.table_a; Sample3.table_d] /\
  final_tables (trace (main_on Sample3.catalogue Sample3.world_ok))
    = [Sample3.normalized_ad] /\
  final_tables (trace (main_on Sample3.catalogue_rev Sample3.world_ok))
    = [Sample3.normalized_da].
Proof. repeat split; vm_compute; reflexivity. Qed.

(** ** Facts about strings *)

Lemma prefix_empty s : String.prefix EmptyString s = true.
Proof. destruct s; reflexivity. Qed.

Lemma prefix_single a c s :
  String.prefix (String a EmptyString) (String c s) = Ascii.eqb a c.
Proof.
  change (String.prefix (String a EmptyString) (String c s))
    with (if ascii_dec a c then String.prefix EmptyString s else false).
  destruct (ascii_dec a c) as [->|N].
  - rewrite prefix_empty, Ascii.eqb_refl. reflexivity.
  - symmetry. apply Ascii.eqb_neq. exact N.
Qed.

(** One step of doubling the single quotes. *)
Lemma escape_step c s :
  Py.replace "'" "''" (String c s) =
  if Ascii.eqb "'" c
  then String "'" (String "'" (Py.replace "'" "''" s))
  else String c (Py.replace "'" "''" s).
Proof.
  unfold Py.replace.
  change (Py.replace_from "'" "''" (String c s) 0)
    with (if String.prefix "'" (String c s)
          then "''" +:+ Py.replace_from "'" "''" s 0
          else String c (Py.replace_from "'" "''" s 0)).
  rewrite prefix_single. reflexivity.
Qed.

(** Doubling adds one character per single quote. *)
Lemma escape_length s :
  String.length (Py.replace "'" "''" s) = String.length s + Py.count_char "'" s.
Proof.
  induction s as [|c s IH]; [reflexivity|].
  rewrite escape_step. cbn [Py.count_char String.length].
  destruct (Ascii.eqb "'" c); cbn [String.length]; rewrite IH; lia.
Qed.

Lemma escape_no_quote s :
  Py.count_char "'" s = 0 -> Py.replace "'" "''" s = s.
Proof.
  induction s as [|c s IH]; [reflexivity|].
  rewrite escape_step. cbn [Py.count_char].
  destruct (Ascii.eqb "'" c); [discriminate|].
  intros H. rewrite IH; [reflexivity|exact H].
Qed.

Lemma escape_fixed s :
  Py.replace "'" "''" s = s <-> Py.count_char "'" s = 0.
Proof.
  split; [|apply escape_no_quote].
  intros H. pose proof (escape_length s) as L. rewrite H in L. lia.
Qed.

(** [s[:2]] is the prefix of [s] of length [min 2 (len s)]. *)
Lemma slice_to_2_spec s :
  String.prefix (Py.slice_to 2 s) s = true /\
  String.length (Py.slice_to 2 s) = Nat.min 2 (String.length s) /\
  (String.length s < 2 -> Py.slice_to 2 s = s).
Proof.
  unfold Py.slice_to.
  destruct s as [|a [|b r]]; cbn.
  - repeat split; reflexivity.
  - destruct (ascii_dec a a); [|congruence]. repeat split; reflexivity.
  - destruct (ascii_dec a a); [|congruence].
    destruct (ascii_dec b b); [|congruence].
    destruct r; cbn; (split; [reflexivity|split; [reflexivity|lia]]).
Qed.

(** ** Facts about lists and frames *)

Lemma nth_map_lt {A B} (f : A -> B) (l : list A) i d d' :
  i < length l -> nth i (map f l) d' = f (nth i l d).
Proof.
  intros H. rewrite (List.nth_indep _ d' (f d)).
  - apply List.map_nth.
  - rewrite List.length_map. exact H.
Qed.

Lemma map_fixed {A} (f : A -> A) (l : list A) :
  map f l = l <-> Forall (fun x => f x = x) l.
Proof.
  induction l as [|a l IH]; cbn.
  - split; constructor.
  - split.
    + intros [= Ha Hl]. constructor; [exact Ha|apply IH; exact Hl].
    + intros H. inversion H; subst. f_equal; [assumption|apply IH; assumption].
Qed.

Lemma existsb_false_In {A} (p : A -> bool) (l : list A) (x : A) :
  existsb p l = false -> In x l -> p x = false.
Proof.
  intros H Hx. destruct (p x) eqn:P; [|reflexivity].
  assert (existsb p l = true) by (apply List.existsb_exists; exists x; auto).
  congruence.
Qed.

Lemma length_zero_nil {A} (l : list A) : Nat.eqb (length l) 0 = true <-> l = [].
Proof. destruct l; cbn; split; congruence. Qed.

Lemma seq_add m : forall s k, seq (k + s) m = map (Nat.add k) (seq s m).
Proof.
  induction m as [|m IH]; intros s k; [reflexivity|].
  cbn [seq map]. f_equal. rewrite <- IH. f_equal. lia.
Qed.

Lemma seq_from k m : seq k m = map (Nat.add k) (seq 0 m).
Proof. rewrite <- seq_add. f_equal. lia. Qed.

Lemma label_eqb_eq a b : label_eqb a b = true <-> a = b.
Proof.
  destruct a, b; cbn; try (split; [discriminate|congruence]).
  - rewrite Nat.eqb_eq. split; congruence.
  - rewrite String.eqb_eq. split; congruence.
Qed.

Lemma len_records df : length (to_dict_records df) = len df.
Proof. unfold to_dict_records. rewrite List.length_map, List.length_seq. reflexivity. Qed.

Lemma rectangular_In df l s :
  rectangular df = true -> In (l, s) df -> length s = len df.
Proof.
  unfold rectangular. intros H Hin. rewrite List.forallb_forall in H.
  apply Nat.eqb_eq. exact (H (l, s) Hin).
Qed.

Lemma rectangular_lookup df :
  rectangular df = true -> Forall (fun c => length (snd c) = len df) df.
Proof.
  unfold rectangular. intros H. apply List.Forall_forall. intros c Hc.
  rewrite List.forallb_forall in H. apply Nat.eqb_eq. apply H. exact Hc.
Qed.

Lemma column_len l d :
  rectangular d = true -> length (column_or_nan l d) = len d.
Proof.
  intros R. unfold column_or_nan, lookup_col.
  destruct (List.find _ d) as [[l' s]|] eqn:F.
  - apply List.find_some in F as [F _]. exact (rectangular_In d l' s R F).
  - apply List.repeat_length.
Qed.


(** Stacking two frames with the same columns stacks their records. *)
Lemma frame_rows_app (l0 : label) (L : list label) (a b : label -> Series) :
  (forall l, In l (l0 :: L) -> length (a l) = length (a l0)) ->
  to_dict_records (map (fun l => (l, a l ++ b l)) (l0 :: L)) =
  to_dict_records (map (fun l => (l, a l)) (l0 :: L)) ++
  to_dict_records (map (fun l => (l, b l)) (l0 :: L)).
Proof.
  intros Ha. unfold to_dict_records. cbn [map len].
  unfold Series, cell in *.
  rewrite List.length_app, List.seq_app, List.map_app. f_equal.
  - apply List.map_ext_in. intros i Hi. apply List.in_seq in Hi.
    unfold row_at. cbn [map fst snd]. f_equal.
    + f_equal. apply List.app_nth1. lia.
    + rewrite !List.map_map. apply List.map_ext_in. intros l Hl. cbn [fst snd].
      f_equal. apply List.app_nth1. rewrite (Ha l); [lia|right; exact Hl].
  - cbn [Nat.add]. rewrite (seq_from (length (a l0))), List.map_map.
    apply List.map_ext. intros j.
    unfold row_at. cbn [map fst snd]. f_equal.
    + f_equal. apply List.app_nth2_plus.
    + rewrite !List.map_map. apply List.map_ext_in. intros l Hl. cbn [fst snd].
      f_equal. rewrite <- (Ha l) by (right; exact Hl). apply List.app_nth2_plus.
Qed.

Lemma stacked_records (l0 : label) (L : list label) (ds : list DataFrame) :
  Forall (fun d => rectangular d = true) ds ->
  to_dict_records (map (fun l => (l, flat_map (column_or_nan l) ds)) (l0 :: L)) =
  flat_map (fun d => to_dict_records (reindex (l0 :: L) d)) ds.
Proof.
  induction 1 as [|d ds Hd _ IH]; [reflexivity|].
  cbn [flat_map]. rewrite <- IH. unfold reindex.
  apply (frame_rows_app l0 L (fun l => column_or_nan l d)
           (fun l => flat_map (column_or_nan l) ds)).
  intros l _. rewrite !column_len by exact Hd. reflexivity.
Qed.

Lemma union_labels_cons d dfs :
  empty d = false -> exists l0 L, union_labels (d :: dfs) = l0 :: L.
Proof.
  destruct d as [|[l s] d]; [discriminate|]. intros _.
  unfold union_labels. cbn [flat_map map fst app dedup]. eauto.
Qed.

Lemma concat_cons d dfs : exists raw, concat (d :: dfs) = Normal raw.
Proof. eexists. reflexivity. Qed.

(** The records of [pd.concat] are the records of the frames, each
    reindexed to the union of the columns, in the order of the frames. *)
Lemma concat_records dfs raw :
  Forall (fun d => rectangular d = true) dfs ->
  Forall (fun d => empty d = false) dfs ->
  concat dfs = Normal raw ->
  to_dict_records raw =
  flat_map (fun d => to_dict_records (reindex (union_labels dfs) d)) dfs.
Proof.
  intros R E C. destruct dfs as [|d dfs]; [discriminate C|].
  injection C as <-.
  destruct (union_labels_cons d dfs) as (l0 & L & ->).
  { inversion E; assumption. }
  exact (stacked_records l0 L (d :: dfs) R).
Qed.



Lemma lookup_col_cons l l' s' d :
  lookup_col l ((l', s') :: d) = if label_eqb l l' then Some s' else lookup_col l d.
Proof. unfold lookup_col. cbn [List.find fst snd]. destruct (label_eqb l l'); reflexivity. Qed.

Lemma lookup_col_first l s d :
  List.NoDup (map fst d) -> In (l, s) d -> lookup_col l d = Some s.
Proof.
  induction d as [|[l' s'] d IH]; [contradiction|].
  cbn [map fst]. intros N H. apply List.NoDup_cons_iff in N as [Nl N].
  rewrite lookup_col_cons. destruct H as [[= -> ->]|H].
  - rewrite (proj2 (label_eqb_eq l l) eq_refl). reflexivity.
  - destruct (label_eqb l l') eqn:E.
    + apply label_eqb_eq in E as ->. exfalso. apply Nl.
      apply List.in_map_iff. exists (l', s). split; [reflexivity|exact H].
    + apply IH; assumption.
Qed.

Lemma reindex_same d : List.NoDup (map fst d) -> reindex (map fst d) d = d.
Proof.
  intros N. unfold reindex. rewrite List.map_map.
  transitivity (map (fun c : label * Series => c) d); [|apply List.map_id].
  apply List.map_ext_in.
  intros [l s] H. cbn [fst]. unfold column_or_nan.
  rewrite (lookup_col_first l s d N H). reflexivity.
Qed.

Lemma filter_twice (p q : label -> bool) (Y : list label) :
  (forall y, p y = true -> q y = true) ->
  List.filter p (List.filter q Y) = List.filter p Y.
Proof.
  intros H. induction Y as [|y Y IH]; [reflexivity|]. cbn [List.filter].
  destruct (q y) eqn:Q; cbn [List.filter].
  - rewrite IH. reflexivity.
  - destruct (p y) eqn:P; [|exact IH]. rewrite (H y P) in Q. discriminate Q.
Qed.

Lemma filter_swap (p q : label -> bool) (Y : list label) :
  List.filter p (List.filter q Y) = List.filter q (List.filter p Y).
Proof.
  induction Y as [|y Y IH]; [reflexivity|]. cbn [List.filter].
  destruct (q y) eqn:Q, (p y) eqn:P; cbn [List.filter]; rewrite ?Q, ?P, IH; reflexivity.
Qed.

Lemma filter_dedup (p : label -> bool) (X : list label) :
  List.filter p (dedup X) = dedup (List.filter p X).
Proof.
  induction X as [|x X IH]; [reflexivity|]. cbn [dedup List.filter].
  destruct (p x) eqn:P; cbn [dedup].
  - f_equal. rewrite filter_swap, IH. reflexivity.
  - rewrite <- IH. apply filter_twice. intros y Py.
    destruct (label_eqb x y) eqn:E; [|reflexivity].
    apply label_eqb_eq in E as ->. congruence.
Qed.

Lemma filter_absent (l : label) (L : list label) :
  ~ In l L -> List.filter (fun l' => negb (label_eqb l l')) L = L.
Proof.
  induction L as [|x L IH]; [reflexivity|]. intros N. cbn [List.filter].
  destruct (label_eqb l x) eqn:E.
  - apply label_eqb_eq in E as ->. exfalso. apply N. left. reflexivity.
  - cbn [negb]. rewrite IH; [reflexivity|]. intros H. apply N. right. exact H.
Qed.

Lemma dedup_app_known (L R : list label) :
  List.NoDup L -> (forall x, In x R -> In x L) -> dedup (L ++ R) = L.
Proof.
  revert R. induction L as [|l L IH]; intros R N H.
  - destruct R as [|r R]; [reflexivity|]. destruct (H r (or_introl eq_refl)).
  - apply List.NoDup_cons_iff in N as [Nl N]. cbn [app dedup]. f_equal.
    rewrite filter_dedup, List.filter_app, (filter_absent l L Nl).
    apply IH; [exact N|]. intros x Hx. apply List.filter_In in Hx as [Hx Hne].
    destruct (H x Hx) as [<-|Hin]; [|exact Hin].
    rewrite (proj2 (label_eqb_eq l l) eq_refl) in Hne. discriminate Hne.
Qed.

Lemma union_labels_same (L : list label) d dfs :
  List.NoDup L -> Forall (fun d => map fst d = L) (d :: dfs) ->
  union_labels (d :: dfs) = L.
Proof.
  intros N F. unfold union_labels. cbn [flat_map].
  apply List.Forall_cons_iff in F as [Hd Hdfs]. rewrite Hd.
  apply dedup_app_known; [exact N|].
  intros x Hx. apply List.in_flat_map in Hx as (d' & Hd' & Hx).
  rewrite List.Forall_forall in Hdfs. rewrite (Hdfs d' Hd') in Hx. exact Hx.
Qed.

(** When all frames have the same columns, the records of [pd.concat] are
    the records of the frames, one frame after the other. *)
Lemma concat_records_same (L : list label) dfs raw :
  List.NoDup L ->
  Forall (fun d => map fst d = L) dfs ->
  Forall (fun d => rectangular d = true) dfs ->
  Forall (fun d => empty d = false) dfs ->
  concat dfs = Normal raw ->
  to_dict_records raw = flat_map to_dict_records dfs.
Proof.
  intros N F R E C. rewrite (concat_records dfs raw R E C).
  destruct dfs as [|d dfs]; [reflexivity|].
  rewrite (union_labels_same L d dfs N F).
  clear C R E. induction F as [|x ds Hx _ IH]; [reflexivity|].
  cbn [flat_map]. rewrite IH. f_equal.
  rewrite <- Hx in N |- *. rewrite (reindex_same x N). reflexivity.
Qed.

(** ** The normaliser *)

(** What the normaliser returns on a table of four columns. *)
Lemma process_four l0 c0 l1 c1 l2 c2 l3 c3 :
  process_and_clean_data [(l0, c0); (l1, c1); (l2, c2); (l3, c3)] =
  ([Log INFO "Aplicando transformações e limpeza nos dados..."],
   Normal [(LStr "cod_aj_apur", c0);
           (LStr "descricao", str_replace "'" "''" c1);
           (LStr "data_inicio", c2);
           (LStr "data_fim",
            replace_values ["nan"; "NaN"; EmptyString] DEFAULT_DATA_FIM
              (fillna DEFAULT_DATA_FIM c3));
           (LStr "uf", str_slice_to 2 c0)]).
Proof. reflexivity. Qed.

(** Any other number of columns is rejected by [df.columns = COLUNAS]. *)
Lemma process_width df :
  length df <> 4 ->
  exists msg, process_and_clean_data df =
    ([Log INFO "Aplicando transformações e limpeza nos dados..."],
     Raise (Exn ValueError msg None)).
Proof.
  intros H. unfold process_and_clean_data, set_columns.
  destruct (Nat.eqb_spec (length COLUNAS) (length df)) as [E|E].
  - exfalso. apply H. rewrite <- E. reflexivity.
  - eexists. reflexivity.
Qed.

Lemma process_trace df :
  exists r, process_and_clean_data df =
    ([Log INFO "Aplicando transformações e limpeza nos dados..."], r).
Proof.
  destruct (Nat.eq_dec (length df) 4) as [E|E].
  - destruct df as [|[l0 c0] [|[l1 c1] [|[l2 c2] [|[l3 c3] [|? ?]]]]]; try discriminate E.
    eexists. reflexivity.
  - destruct (process_width df E) as [msg Hm]. eexists. exact Hm.
Qed.

Lemma process_inv df out :
  outcome (process_and_clean_data df) = Normal out ->
  exists l0 c0 l1 c1 l2 c2 l3 c3, df = [(l0, c0); (l1, c1); (l2, c2); (l3, c3)].
Proof.
  intros H.
  destruct (Nat.eq_dec (length df) 4) as [E|E].
  - destruct df as [|[l0 c0] [|[l1 c1] [|[l2 c2] [|[l3 c3] [|? ?]]]]]; try discriminate E.
    repeat eexists.
  - destruct (process_width df E) as [msg Hm]. rewrite Hm in H. discriminate H.
Qed.

Lemma process_len raw df :
  outcome (process_and_clean_data raw) = Normal df -> len df = len raw.
Proof.
  intros H.
  destruct (process_inv raw df H) as (l0 & c0 & l1 & c1 & l2 & c2 & l3 & c3 & ->).
  cbn in H. injection H as <-. reflexivity.
Qed.

Lemma clean_series s :
  replace_values ["nan"; "NaN"; EmptyString] DEFAULT_DATA_FIM (fillna DEFAULT_DATA_FIM s)
  = map clean_cell s.
Proof.
  unfold replace_values, fillna. rewrite List.map_map.
  apply List.map_ext. intros [x|]; reflexivity.
Qed.

Lemma clean_cell_idem c : clean_cell (clean_cell c) = clean_cell c.
Proof.
  destruct c as [x|]; [|reflexivity]. cbn [clean_cell].
  destruct (existsb _ _) eqn:E; [reflexivity|]. cbn [clean_cell]. rewrite E. reflexivity.
Qed.

(** C1: in every record of the normaliser's output [data_fim] is a non-empty
    string. A cell of the fourth input column that is missing, the empty
    string, ["nan"] or ["NaN"] becomes ["31129999"]; any other value (a
    whitespace-only one included) passes through unchanged. *)
Theorem C1_data_fim_never_blank (df out : DataFrame) :
  rectangular df = true ->
  outcome (process_and_clean_data df) = Normal out ->
  exists l raw, nth_error df 3 = Some (l, raw) /\
  forall i, i < len out ->
    exists s, field (LStr "data_fim") (row_at i out) = Some (Some s) /\
      s <> EmptyString /\
      (nth i raw None = None \/ nth i raw None = Some EmptyString \/
       nth i raw None = Some "nan" \/ nth i raw None = Some "NaN" ->
       s = "31129999") /\
      (forall v, nth i raw None = Some v ->
                 v <> EmptyString -> v <> "nan" -> v <> "NaN" -> s = v).
Proof.
  intros Hrect H.
  destruct (process_inv df out H) as (l0 & c0 & l1 & c1 & l2 & c2 & l3 & c3 & ->).
  rewrite process_four in H. injection H as <-.
  exists l3, c3. split; [reflexivity|].
  intros i Hi. cbn [len] in Hi.
  apply rectangular_lookup in Hrect.
  assert (Hlen : length c3 = length c0).
  { rewrite List.Forall_forall in Hrect. apply (Hrect (l3, c3)). cbn. tauto. }
  rewrite clean_series.
  exists (match nth i c3 None with
          | Some x => if existsb (String.eqb x) ["nan"; "NaN"; EmptyString]
                      then "31129999" else x
          | None => "31129999" end).
  split.
  { cbn. rewrite (nth_map_lt _ _ _ (None : cell)) by lia.
    destruct (nth i c3 None) as [x|]; cbn; [|reflexivity].
    destruct (_ || _); reflexivity. }
  destruct (nth i c3 None) as [x|] eqn:E.
  - cbn [existsb].
    destruct (String.eqb_spec x "nan") as [->|N1];
    [|destruct (String.eqb_spec x "NaN") as [->|N2];
    [|destruct (String.eqb_spec x EmptyString) as [->|N3]]]; cbn.
    all: split; [try discriminate|split].
    all: try (intros _; reflexivity).
    all: try (intros v [= <-]; congruence).
    + exact N3.
    + intros [?|[?|[?|?]]]; congruence.
  - split; [discriminate|]. split; [reflexivity|]. intros v Hv; discriminate.
Qed.

Lemma C1_witness :
  rectangular Sample.table_a = true /\
  outcome (process_and_clean_data Sample.table_a) = Normal Sample.normalized_a /\
  field (LStr "data_fim") (row_at 0 Sample.normalized_a) = Some (Some "31129999") /\
  field (LStr "data_fim") (row_at 1 Sample.normalized_a) = Some (Some "31122021").
Proof.
  split; [reflexivity|]. split; [reflexivity|].
  destruct (C1_data_fim_never_blank Sample.table_a Sample.normalized_a
              eq_refl eq_refl) as (l & raw & Hraw & Hrows).
  cbn in Hraw. injection Hraw as <- <-.
  split.
  - destruct (Hrows 0) as (s & Hs & _ & Hsent & _); [cbn; lia|].
    rewrite Hs, (Hsent (or_introl eq_refl)). reflexivity.
  - destruct (Hrows 1) as (s & Hs & _ & _ & Hkeep); [cbn; lia|].
    rewrite Hs, (Hkeep "31122021" eq_refl); [reflexivity|discriminate..].
Defined.

(** C9: in every record of the normaliser's output [uf] is the first two
    characters of [cod_aj_apur], which is the code of the first input column,
    untouched by the cleaning. A code shorter than two characters is its own
    [uf]; a missing code gives a missing [uf]. *)
Theorem C9_uf_first_two_chars (df out : DataFrame) :
  outcome (process_and_clean_data df) = Normal out ->
  exists l codes, nth_error df 0 = Some (l, codes) /\
  forall i, i < len out ->
    exists cod uf,
      field (LStr "cod_aj_apur") (row_at i out) = Some cod /\
      field (LStr "uf") (row_at i out) = Some uf /\
      cod = nth i codes None /\
      (cod = None -> uf = None) /\
      (forall s, cod = Some s ->
         exists u, uf = Some u /\
           String.prefix u s = true /\
           String.length u = Nat.min 2 (String.length s) /\
           (String.length s < 2 -> u = s)).
Proof.
  intros H.
  destruct (process_inv df out H) as (l0 & c0 & l1 & c1 & l2 & c2 & l3 & c3 & ->).
  rewrite process_four in H. injection H as <-.
  exists l0, c0. split; [reflexivity|].
  intros i Hi. cbn [len] in Hi.
  exists (nth i c0 None), (option_map (Py.slice_to 2) (nth i c0 None)).
  split; [reflexivity|]. split.
  { cbn. unfold str_slice_to.
    rewrite (nth_map_lt _ _ _ (None : cell)) by lia. reflexivity. }
  split; [reflexivity|]. split.
  { intros ->. reflexivity. }
  intros s ->. exists (Py.slice_to 2 s). split; [reflexivity|].
  apply slice_to_2_spec.
Qed.

Lemma C9_witness :
  outcome (process_and_clean_data Sample.table_a) = Normal Sample.normalized_a /\
  field (LStr "uf") (row_at 1 Sample.normalized_a) = Some (Some "A").
Proof.
  split; [reflexivity|].
  destruct (C9_uf_first_two_chars Sample.table_a Sample.normalized_a eq_refl)
    as (l & codes & Hc & Hrows).
  cbn in Hc. injection Hc as <- <-.
  destruct (Hrows 1) as (cod & uf & _ & Huf & Hnth & _ & Hs); [cbn; lia|].
  cbn in Hnth. destruct (Hs "A" Hnth) as (u & -> & _ & _ & Hshort).
  rewrite Huf, Hshort; [reflexivity|cbn; lia].
Defined.

(** C4, as stated, fails: the normaliser rejects its own output, which has
    five columns; and on the four source columns of its output it doubles the
    quotes of [descricao] a second time. *)
Lemma C4_counterexample :
  outcome (process_and_clean_data Sample.table_a) = Normal Sample.normalized_a /\
  outcome (process_and_clean_data Sample.normalized_a) =
    Raise (Exn ValueError
             "Length mismatch: Expected axis has 5 elements, new values have 4 elements"
             None) /\
  lookup_col (LStr "descricao") Sample.normalized_a =
    Some [Some "Credito ''especial''"; Some "Outros debitos"] /\
  exists out2,
    outcome (process_and_clean_data (firstn 4 Sample.normalized_a)) = Normal out2 /\
    lookup_col (LStr "descricao") out2 =
      Some [Some "Credito ''''especial''''"; Some "Outros debitos"].
Proof.
  split; [reflexivity|]. split; [vm_compute; reflexivity|]. split; [reflexivity|].
  eexists. split; reflexivity.
Qed.

(** C4, amended: normalising the normaliser's output is rejected with a
    [ValueError], because the output has five columns. Normalising its four
    source columns again leaves every column but [descricao] as it was,
    doubles the quotes of [descricao] once more, and so leaves the table as
    it was exactly when no description contains a single quote. *)
Theorem C4_renormalising (df out : DataFrame) :
  outcome (process_and_clean_data df) = Normal out ->
  (exists msg, outcome (process_and_clean_data out) = Raise (Exn ValueError msg None)) /\
  exists out2 descricao,
    outcome (process_and_clean_data (firstn 4 out)) = Normal out2 /\
    lookup_col (LStr "descricao") out = Some descricao /\
    lookup_col (LStr "descricao") out2 = Some (str_replace "'" "''" descricao) /\
    (forall l, l <> LStr "descricao" -> lookup_col l out2 = lookup_col l out) /\
    (out2 = out <-> Forall quote_free descricao).
Proof.
  intros H.
  destruct (process_inv df out H) as (l0 & c0 & l1 & c1 & l2 & c2 & l3 & c3 & ->).
  rewrite process_four in H. injection H as <-.
  split.
  { destruct (process_width
               [(LStr "cod_aj_apur", c0); (LStr "descricao", str_replace "'" "''" c1);
                (LStr "data_inicio", c2);
                (LStr "data_fim",
                  replace_values ["nan"; "NaN"; EmptyString] DEFAULT_DATA_FIM
                    (fillna DEFAULT_DATA_FIM c3));
                (LStr "uf", str_slice_to 2 c0)]) as [msg Hm]; [cbn; lia|].
    exists msg. rewrite Hm. reflexivity. }
  cbn [firstn]. rewrite process_four. cbn [outcome snd].
  eexists. exists (str_replace "'" "''" c1). split; [reflexivity|].
  split; [reflexivity|]. split; [reflexivity|].
  rewrite !clean_series.
  assert (Hclean : map clean_cell (map clean_cell c3) = map clean_cell c3).
  { rewrite List.map_map. apply List.map_ext. intros c. apply clean_cell_idem. }
  rewrite Hclean. split.
  - intros l Hl. unfold lookup_col. cbn [List.find fst snd].
    destruct (label_eqb l (LStr "cod_aj_apur")); [reflexivity|].
    destruct (label_eqb l (LStr "descricao")) eqn:E.
    { apply label_eqb_eq in E. contradiction. }
    reflexivity.
  - split.
    + intros [= E]. apply map_fixed in E.
      unfold str_replace in *. rewrite List.Forall_map in E |- *.
      eapply List.Forall_impl; [|exact E].
      intros [s|] Hs s' Hs'; [|discriminate]. cbn in Hs, Hs'.
      injection Hs as Hs. injection Hs' as <-. apply escape_fixed. exact Hs.
    + intros HF. do 3 f_equal.
      apply map_fixed. eapply List.Forall_impl; [|exact HF].
      intros [s|] Hs; [|reflexivity]. cbn. f_equal. apply escape_no_quote.
      apply Hs. reflexivity.
Qed.

Lemma C4_witness :
  outcome (process_and_clean_data Sample.table_a) = Normal Sample.normalized_a /\
  exists msg, outcome (process_and_clean_data Sample.normalized_a) =
                Raise (Exn ValueError msg None).
Proof.
  split; [reflexivity|].
  exact (proj1 (C4_renormalising Sample.table_a Sample.normalized_a eq_refl)).
Defined.

(** ** The region fetcher *)

(** Every exception class of the model derives from [Exception]. *)
Lemma isinstance_Exception e : isinstance e Exception = true.
Proof. destruct e as [[] ? ?]; reflexivity. Qed.

Lemma descriptor_idPacote estado :
  RegionDescriptor estado = true -> exists p, estado !! "idPacote" = Some (PInt p).
Proof.
  unfold RegionDescriptor. intros H.
  destruct (estado !! "UF") as [[| |?]|]; try discriminate H.
  destruct (estado !! "idPacote") as [[|p|?]|]; try discriminate H.
  exists p. reflexivity.
Qed.

(** The four ways a fetch can end. *)
Lemma fetch_cases (w : World) (estado : gmap string pyval) :
  (exists m, fetch_state_data w estado = ([Log WARNING m], Normal None) /\
             is_none (default PNone (estado !! "idTabela")) = true) \/
  (exists e, fetch_state_data w estado = ([], Raise e) /\
             estado !! "idPacote" = None) \/
  (exists g lv m, fetch_state_data w estado = ([g; Log lv m], Normal None) /\
                  is_Get g = true /\ (lv = WARNING \/ lv = ERROR)) \/
  (exists g m text df,
      fetch_state_data w estado = ([g; Log INFO m], Normal (Some df)) /\
      is_Get g = true /\ read_csv w text = Normal df).
Proof.
  unfold fetch_state_data.
  destruct (is_none (default PNone (estado !! "idTabela"))).
  { left. eexists. split; reflexivity. }
  right. unfold subscript.
  destruct (estado !! "idPacote") as [p|].
  2:{ left. eexists. split; reflexivity. }
  right.
  set (id_tabela := default PNone (estado !! "idTabela")).
  set (uf := py_str (default (PStr "Desconhecido") (estado !! "UF"))).
  unfold http_call, raise_for_status, try_except, bind, emit, raise, ret, lift, logging.
  destruct (requests_get w BASE_URL id_tabela p REQUEST_TIMEOUT)
    as [e|status text] eqn:G; cbn [fst snd app]; cbv beta.
  - left.
    destruct (isinstance e RequestException);
      [|destruct (isinstance e ParserError);
        [|destruct (isinstance e Exception) eqn:X]].
    all: try (do 3 eexists; split; [reflexivity|split; [reflexivity|tauto]]).
    rewrite isinstance_Exception in X. discriminate.
  - destruct ((400 <=? status)%Z && (status <? 600)%Z).
    { left. cbn. do 3 eexists; split; [reflexivity|split; [reflexivity|tauto]]. }
    cbn [fst snd app].
    destruct (negb (Py.truthy (Py.strip text))).
    { left. cbn. do 3 eexists; split; [reflexivity|split; [reflexivity|tauto]]. }
    destruct (read_csv w text) as [df|e] eqn:R.
    + right. do 4 eexists. split; [reflexivity|split; [reflexivity|exact R]].
    + left. cbv beta.
      destruct (isinstance e RequestException);
        [|destruct (isinstance e ParserError);
          [|destruct (isinstance e Exception) eqn:X]].
      all: try (do 3 eexists; split; [reflexivity|split; [reflexivity|tauto]]).
      rewrite isinstance_Exception in X. discriminate.
Qed.

(** Outside the descriptors: a dictionary with a table id and no
    ["idPacote"] key makes the subscript raise before the [try] is entered. *)
Lemma fetch_without_idPacote (w : World) (estado : gmap string pyval) :
  has_table estado = true ->
  estado !! "idPacote" = None ->
  fetch_state_data w estado = ([], Raise (Exn KeyError "'idPacote'" None)).
Proof.
  unfold has_table, fetch_state_data. intros H N.
  apply negb_true_iff in H. rewrite H. unfold subscript. rewrite N. reflexivity.
Qed.

(** C5: for every region descriptor and every behaviour of the network and
    of the parser, the fetcher returns: a table, which is what the parser
    produced, or [None] with a warning or an error logged. It does not
    raise. *)
Theorem C5_fetch_never_raises (w : World) (estado : gmap string pyval) :
  RegionDescriptor estado = true ->
  (exists text df, read_csv w text = Normal df /\
      outcome (fetch_state_data w estado) = Normal (Some df)) \/
  (outcome (fetch_state_data w estado) = Normal None /\
   exists lv msg, In (Log lv msg) (trace (fetch_state_data w estado)) /\
                  (lv = WARNING \/ lv = ERROR)).
Proof.
  intros H. destruct (descriptor_idPacote estado H) as [p Hp].
  destruct (fetch_cases w estado) as
    [(m & E & _)|[(x & _ & N)|[(g & lv & m & E & _ & Hlv)|(g & m & tx & df & E & _ & R)]]].
  - right. rewrite E. split; [reflexivity|].
    exists WARNING, m. split; [left; reflexivity|left; reflexivity].
  - rewrite Hp in N. discriminate N.
  - right. rewrite E. split; [reflexivity|].
    exists lv, m. split; [right; left; reflexivity|exact Hlv].
  - left. exists tx, df. rewrite E. split; [exact R|reflexivity].
Qed.

Lemma C5_witness :
  RegionDescriptor Sample.region_a = true /\
  forall e, outcome (fetch_state_data Sample.world_down Sample.region_a) <> Raise e.
Proof.
  split; [reflexivity|]. intros e.
  destruct (C5_fetch_never_raises Sample.world_down Sample.region_a eq_refl)
    as [(text & df & _ & O)|(O & _)]; rewrite O; discriminate.
Defined.

(** C8: a region whose ["idTabela"] is absent or [None] is skipped at once:
    the fetcher returns [None] after one warning, sends no request, logs no
    error, and the region contributes no rows. *)
Theorem C8_skipped_region (w : World) (estado : gmap string pyval) :
  estado !! "idTabela" = None \/ estado !! "idTabela" = Some PNone ->
  outcome (fetch_state_data w estado) = Normal None /\
  (exists msg, trace (fetch_state_data w estado) = [Log WARNING msg]) /\
  existsb is_Get (trace (fetch_state_data w estado)) = false /\
  existsb is_error_log (trace (fetch_state_data w estado)) = false /\
  rows_parsed w estado = 0 /\
  successes w [estado] = [].
Proof.
  intros H.
  assert (E : fetch_state_data w estado =
              ([Log WARNING ("Ignorando "
                 +:+ py_str (default (PStr "Desconhecido") (estado !! "UF"))
                 +:+ " (sem idTabela)")], Normal None)).
  { unfold fetch_state_data. destruct H as [-> | ->]; reflexivity. }
  unfold rows_parsed, successes, parsed. cbn [flat_map]. rewrite E.
  repeat split; try reflexivity. eexists; reflexivity.
Qed.

Lemma C8_witness :
  Sample.region_b !! "idTabela" = Some PNone /\
  outcome (fetch_state_data Sample.world_ok Sample.region_b) = Normal None /\
  rows_parsed Sample.world_ok Sample.region_b = 0.
Proof.
  split; [reflexivity|].
  destruct (C8_skipped_region Sample.world_ok Sample.region_b (or_intror eq_refl))
    as (O & _ & _ & _ & R & _).
  split; [exact O|exact R].
Defined.

Lemma parsed_read_csv (w : World) e df :
  parsed w e = Some df -> exists text, read_csv w text = Normal df.
Proof.
  unfold parsed, outcome.
  destruct (fetch_cases w e) as
    [(m & -> & _)|[(x & -> & _)|[(g & lv & m & -> & _)|(g & m & tx & df' & -> & _ & R)]]];
    cbn [snd]; try discriminate.
  intros [= <-]. exists tx. exact R.
Qed.


(** ** The synchroniser *)

(** The two ways a delivery can go: nothing to send, or one POST followed
    by log lines only; a 4xx/5xx answer is logged and not raised. *)
Lemma enviar_cases (w : World) (df : DataFrame) :
  (empty df = true /\
   exists m, enviar_dados_para_api w df = ([Log WARNING m], Normal tt)) \/
  (empty df = false /\
   exists m rest r,
     enviar_dados_para_api w df =
       (Log INFO m
        :: Post API_URL (to_dict_records df) 120
             (requests_post w API_URL (to_dict_records df) 120)
        :: rest, r) /\
     forallb is_Log rest = true /\
     (forall status text,
        requests_post w API_URL (to_dict_records df) 120 = HttpResponse status text ->
        (400 <= status < 600)%Z ->
        r = Normal tt /\ existsb is_error_log rest = true)).
Proof.
  unfold enviar_dados_para_api.
  destruct (empty df).
  { left. split; [reflexivity|]. eexists. reflexivity. }
  right. split; [reflexivity|].
  unfold http_call, raise_for_status, try_except, bind, emit, raise, ret, lift, logging.
  destruct (requests_post w API_URL (to_dict_records df) 120)
    as [e|status text] eqn:G; cbn [fst snd app]; cbv beta.
  - destruct (isinstance e RequestException).
    + destruct (exn_response e); cbn [fst snd app];
        do 3 eexists; (split; [reflexivity|split; [reflexivity|discriminate]]).
    + do 3 eexists. split; [reflexivity|split; [reflexivity|discriminate]].
  - destruct ((400 <=? status)%Z && (status <? 600)%Z) eqn:S.
    + cbn. do 3 eexists. split; [reflexivity|]. split; [reflexivity|].
      intros ? ? _ _. split; reflexivity.
    + cbn [fst snd app].
      destruct (response_json w text) as [res|e] eqn:J; cbn [fst snd app]; cbv beta.
      * do 3 eexists. split; [reflexivity|]. split; [reflexivity|].
        status_absurd S.
      * destruct (isinstance e RequestException).
        -- destruct (exn_response e); cbn [fst snd app];
           do 3 eexists; (split; [reflexivity|split; [reflexivity|]]);
           status_absurd S.
        -- do 3 eexists. split; [reflexivity|]. split; [reflexivity|].
           status_absurd S.
Qed.

Lemma enviar_no_write (w : World) (df : DataFrame) :
  existsb is_ToCsv (trace (enviar_dados_para_api w df)) = false.
Proof.
  destruct (enviar_cases w df) as [(_ & m & ->)|(_ & m & rest & r & -> & L & _)];
    [reflexivity|].
  cbn [trace fst existsb is_ToCsv orb].
  induction rest as [|e rest IH]; [reflexivity|].
  cbn [forallb] in L. apply andb_true_iff in L as [He L].
  cbn [existsb]. rewrite (IH L). destruct e; try discriminate He. reflexivity.
Qed.

Lemma logs_no_post rest :
  forallb is_Log rest = true -> existsb is_Post rest = false.
Proof.
  induction rest as [|e rest IH]; [reflexivity|].
  cbn [forallb existsb]. intros L. apply andb_true_iff in L as [He L].
  rewrite (IH L). destruct e; try discriminate He. reflexivity.
Qed.

(** ** The run *)

Lemma events_of_cons_main e t : events_of (Main e :: t) = e :: events_of t.
Proof. reflexivity. Qed.

Lemma events_of_cons_pool ts t :
  events_of (Pool ts :: t) = List.concat ts ++ events_of t.
Proof. reflexivity. Qed.

Lemma events_of_app t1 t2 : events_of (t1 ++ t2) = events_of t1 ++ events_of t2.
Proof. unfold events_of. apply List.flat_map_app. Qed.

Lemma events_of_map_main t : events_of (map Main t) = t.
Proof. induction t as [|e t IH]; [reflexivity|]. cbn. f_equal. exact IH. Qed.

Lemma final_tables_app t1 t2 :
  final_tables (t1 ++ t2) = final_tables t1 ++ final_tables t2.
Proof. unfold final_tables. apply List.flat_map_app. Qed.

Lemma final_tables_map_main t :
  existsb is_ToCsv t = false -> final_tables (map Main t) = [].
Proof.
  induction t as [|e t IH]; [reflexivity|].
  cbn [existsb]. intros H. apply orb_false_iff in H as [He Ht].
  cbn [map final_tables flat_map]. fold (final_tables (map Main t)).
  rewrite (IH Ht). destruct e; try reflexivity. discriminate He.
Qed.

Lemma in_map_main (e : event) (t : list event) : In (Main e) (map Main t) -> In e t.
Proof.
  intros H. apply List.in_map_iff in H as (x & [= ->] & Hx). exact Hx.
Qed.

(** From the merge onwards a run ends in one of three ways: the normaliser
    raises, the write raises, or the write succeeds and the delivery runs. *)
Lemma main_after_fetch_cases (w : World) (dfs : list DataFrame) :
  dfs <> [] ->
  exists raw, concat dfs = Normal raw /\
  ((exists e, outcome (process_and_clean_data raw) = Raise e /\
      main_after_fetch w dfs = ([ev_consolidando; ev_aplicando], Raise e)) \/
   (exists df e, outcome (process_and_clean_data raw) = Normal df /\
      to_csv w OUTPUT_FILENAME df = Some e /\
      main_after_fetch w dfs =
        ([ev_consolidando; ev_aplicando;
          Main (ToCsv OUTPUT_FILENAME df (Some e))], Raise e)) \/
   (exists df, outcome (process_and_clean_data raw) = Normal df /\
      to_csv w OUTPUT_FILENAME df = None /\
      main_after_fetch w dfs =
        (ev_consolidando :: ev_aplicando
         :: Main (ToCsv OUTPUT_FILENAME df None) :: ev_salvo
         :: map Main (trace (enviar_dados_para_api w df))
         ++ match outcome (enviar_dados_para_api w df) with
            | Normal _ => [ev_concluido]
            | Raise _ => []
            end,
         match outcome (enviar_dados_para_api w df) with
         | Normal _ => Normal tt
         | Raise e => Raise e
         end))).
Proof.
  intros Hne. destruct dfs as [|d dfs]; [contradiction|].
  destruct (concat_cons d dfs) as [raw Hraw]. exists raw. split; [exact Hraw|].
  unfold main_after_fetch. rewrite Hraw.
  destruct (process_trace raw) as [r Hr].
  unfold df_to_csv, bind, in_main, map_events, lift, logging, emit, raise, ret,
    outcome, trace.
  cbn [fst snd map app]. rewrite Hr. cbn [fst snd map app].
  destruct r as [df|e].
  2:{ left. exists e. split; reflexivity. }
  right.
  destruct (to_csv w OUTPUT_FILENAME df) as [e|] eqn:W; cbn [fst snd map app].
  { left. exists df, e. split; [reflexivity|]. split; [exact W|reflexivity]. }
  right. exists df. split; [reflexivity|]. split; [exact W|].
  destruct (enviar_dados_para_api w df) as [t [[]|e]]; cbn [fst snd map app].
  - reflexivity.
  - rewrite List.app_nil_r. reflexivity.
Qed.

Lemma run_tasks_results (w : World) {st : nat -> bool} cat ts results :
  run_tasks (fetch_state_data w) st cat = (ts, Normal results) ->
  results = map (parsed w) cat.
Proof.
  revert st ts results. induction cat as [|e cat IH]; intros st ts results H.
  - injection H as _ <-. reflexivity.
  - cbn [run_tasks map] in H |- *.
    destruct (fetch_state_data w e) as [t [b|x]] eqn:F; [|discriminate H].
    destruct (run_tasks (fetch_state_data w) (fun n => st (S n)) cat)
      as [ts' [bs|x]] eqn:R; [|discriminate H].
    injection H as _ <-. rewrite (IH _ ts' bs R). f_equal.
    unfold parsed, outcome. rewrite F. destruct b; reflexivity.
Qed.

Lemma fetch_workers (w : World) e :
  forallb worker_event (fst (fetch_state_data w e)) = true.
Proof.
  destruct (fetch_cases w e) as
    [(m & -> & _)|[(x & -> & _)|[(g & lv & m & -> & G & _)|(g & m & tx & df & -> & G & _)]]];
    cbn; unfold worker_event; rewrite ?G; try reflexivity;
    rewrite orb_true_r; reflexivity.
Qed.

Lemma started_tasks_workers (w : World) (st : nat -> bool) cat :
  Forall (fun t => forallb worker_event t = true)
         (started_tasks (fetch_state_data w) st cat).
Proof.
  revert st. induction cat as [|e cat IH]; intros st; [constructor|].
  cbn [started_tasks]. destruct (st 0); cbn [app]; [constructor|]; try apply IH.
  apply fetch_workers.
Qed.

Lemma run_tasks_workers (w : World) {st : nat -> bool} cat ts r :
  run_tasks (fetch_state_data w) st cat = (ts, r) ->
  Forall (fun t => forallb worker_event t = true) ts.
Proof.
  revert st ts r. induction cat as [|e cat IH]; intros st ts r H.
  - injection H as <- _. constructor.
  - cbn [run_tasks] in H.
    pose proof (fetch_workers w e) as Ht.
    destruct (fetch_state_data w e) as [t [b|x]].
    + destruct (run_tasks (fetch_state_data w) (fun n => st (S n)) cat)
        as [ts' r'] eqn:R.
      injection H as <- _. constructor; [exact Ht|]. exact (IH _ _ _ R).
    + injection H as <- _. constructor; [exact Ht|].
      apply started_tasks_workers.
Qed.

Lemma run_tasks_total (w : World) (st : nat -> bool) cat :
  Forall (fun e => RegionDescriptor e = true) cat ->
  exists ts,
    run_tasks (fetch_state_data w) st cat = (ts, Normal (map (parsed w) cat)).
Proof.
  intros D. revert st. induction D as [|e cat He _ IH]; intros st.
  - eexists. reflexivity.
  - destruct (IH (fun n => st (S n))) as [ts IH']. cbn [run_tasks map]. rewrite IH'.
    destruct (descriptor_idPacote e He) as [p Hp].
    destruct (fetch_state_data w e) as [t [b|x]] eqn:F.
    + assert (P : parsed w e = b).
      { unfold parsed, outcome. rewrite F. destruct b; reflexivity. }
      rewrite P. eexists. reflexivity.
    + exfalso.
      destruct (fetch_cases w e) as
        [(m & E & _)|[(y & _ & N)|[(g & lv & m & E & _)|(g & m & tx & df & E & _)]]];
        try (rewrite F in E; discriminate E).
      rewrite Hp in N. discriminate N.
Qed.

Lemma run_tasks_outcomes (w1 w2 : World) (st1 st2 : nat -> bool) cat :
  (forall e, In e cat ->
     outcome (fetch_state_data w1 e) = outcome (fetch_state_data w2 e)) ->
  snd (run_tasks (fetch_state_data w1) st1 cat) =
  snd (run_tasks (fetch_state_data w2) st2 cat).
Proof.
  revert st1 st2. induction cat as [|e cat IH]; intros st1 st2 H; [reflexivity|].
  cbn [run_tasks].
  pose proof (H e (or_introl eq_refl)) as He. unfold outcome in He.
  specialize (IH (fun n => st1 (S n)) (fun n => st2 (S n))
                 (fun x Hx => H x (or_intror Hx))).
  destruct (fetch_state_data w1 e) as [t1 r1], (fetch_state_data w2 e) as [t2 r2].
  cbn [snd] in He. subst r2.
  destruct r1 as [b|x]; [|reflexivity].
  destruct (run_tasks (fetch_state_data w1) (fun n => st1 (S n)) cat) as [ts1 q1],
           (run_tasks (fetch_state_data w2) (fun n => st2 (S n)) cat) as [ts2 q2].
  cbn [snd] in IH |- *. subst q2. reflexivity.
Qed.

Lemma keep_successes (w : World) cat :
  keep_non_empty (map (parsed w) cat) = successes w cat.
Proof.
  unfold keep_non_empty, successes. induction cat as [|e cat IH]; [reflexivity|].
  cbn [map flat_map]. rewrite IH. reflexivity.
Qed.

Lemma main_on_eq (w : World) cat :
  main_on cat w =
  (in_main (logging INFO "Iniciando o processo de extração de dados estaduais...") ;;;
   results <- executor_map (fetch_state_data w) (pool_started w) cat ;;
   if Nat.eqb (length (keep_non_empty results)) 0
   then in_main (logging WARNING "Nenhum dado foi baixado. Encerrando o processo.")
   else main_after_fetch w (keep_non_empty results)).
Proof. reflexivity. Qed.

Lemma main_on_run (w : World) cat ts r :
  run_tasks (fetch_state_data w) (pool_started w) cat = (ts, r) ->
  main_on cat w =
  match r with
  | Raise e => ([ev_iniciando; Pool ts], Raise e)
  | Normal results =>
      if Nat.eqb (length (keep_non_empty results)) 0
      then ([ev_iniciando; Pool ts; ev_nenhum], Normal tt)
      else (ev_iniciando :: Pool ts
            :: trace (main_after_fetch w (keep_non_empty results)),
            outcome (main_after_fetch w (keep_non_empty results)))
  end.
Proof.
  intros H. rewrite main_on_eq. unfold executor_map. rewrite H.
  destruct r as [results|e]; [|reflexivity].
  unfold bind at 1 2. cbn [in_main map_events logging emit fst snd map app].
  destruct (Nat.eqb (length (keep_non_empty results)) 0); [reflexivity|].
  destruct (main_after_fetch w (keep_non_empty results)) as [t o]. reflexivity.
Qed.

(** The three ways a run can go: a task raised, nothing was kept, or the
    kept tables went on to the merge. *)
Lemma main_cases (w : World) cat :
  exists ts, Forall (fun t => forallb worker_event t = true) ts /\
  ((exists e, main_on cat w = ([ev_iniciando; Pool ts], Raise e) /\
              ~ Forall (fun e => RegionDescriptor e = true) cat) \/
   (successes w cat = [] /\
    main_on cat w = ([ev_iniciando; Pool ts; ev_nenhum], Normal tt)) \/
   (successes w cat <> [] /\
    main_on cat w =
      (ev_iniciando :: Pool ts :: trace (main_after_fetch w (successes w cat)),
       outcome (main_after_fetch w (successes w cat))))).
Proof.
  destruct (run_tasks (fetch_state_data w) (pool_started w) cat) as [ts r] eqn:R.
  exists ts. split; [eapply run_tasks_workers; exact R|].
  rewrite (main_on_run w cat ts r R).
  destruct r as [results|e].
  - pose proof (run_tasks_results w cat ts results R) as ->.
    rewrite keep_successes.
    destruct (Nat.eqb (length (successes w cat)) 0) eqn:L.
    + right; left. apply length_zero_nil in L. split; [exact L|reflexivity].
    + right; right. split; [|reflexivity].
      intros N. rewrite N in L. discriminate L.
  - left. exists e. split; [reflexivity|].
    intros D. destruct (run_tasks_total w (pool_started w) cat D) as [ts' R'].
    rewrite R in R'. discriminate R'.
Qed.

Lemma workers_no_io ts :
  Forall (fun t => forallb worker_event t = true) ts ->
  existsb is_ToCsv (List.concat ts) = false /\
  existsb is_Post (List.concat ts) = false.
Proof.
  induction 1 as [|t ts Ht _ [IH1 IH2]]; [split; reflexivity|].
  cbn [List.concat]. rewrite !List.existsb_app, IH1, IH2, !orb_false_r.
  clear IH1 IH2. induction t as [|e t IH]; [split; reflexivity|].
  cbn [forallb] in Ht. apply andb_true_iff in Ht as [He Ht].
  destruct (IH Ht) as [I1 I2]. cbn [existsb]. rewrite I1, I2.
  destruct e; cbn in He |- *; try discriminate He; split; reflexivity.
Qed.

Lemma successes_In (w : World) cat d :
  In d (successes w cat) ->
  empty d = false /\ exists e, In e cat /\ parsed w e = Some d.
Proof.
  unfold successes. intros H. apply List.in_flat_map in H as (e & He & Hd).
  destruct (parsed w e) as [df|] eqn:P; [|contradiction].
  destruct (empty df) eqn:Em; [contradiction|].
  destruct Hd as [<-|[]]. split; [exact Em|]. exists e. split; assumption.
Qed.

Lemma successes_shape (w : World) cat :
  parser_rectangular w ->
  Forall (fun d => rectangular d = true) (successes w cat) /\
  Forall (fun d => empty d = false) (successes w cat).
Proof.
  intros PR. split; apply List.Forall_forall; intros d Hd;
    apply successes_In in Hd as (Em & e & _ & P); [|exact Em].
  destruct (parsed_read_csv w e d P) as [text R]. exact (PR text d R).
Qed.





(** The table handed to the writer depends on the kept tables only. *)
Lemma final_tables_after (w : World) (dfs : list DataFrame) :
  dfs <> [] ->
  exists raw, concat dfs = Normal raw /\
    final_tables (trace (main_after_fetch w dfs)) =
    match outcome (process_and_clean_data raw) with
    | Normal df => [df]
    | Raise _ => []
    end.
Proof.
  intros N.
  destruct (main_after_fetch_cases w dfs N)
    as (raw & C & [(x & P & T)|[(df & x & P & _ & T)|(df & P & _ & T)]]);
    exists raw; (split; [exact C|]); rewrite T, P; cbn [trace fst]; try reflexivity.
  unfold ev_consolidando, ev_aplicando, ev_salvo.
  cbn [final_tables flat_map app]. fold (final_tables
    (map Main (trace (enviar_dados_para_api w df)) ++
     match outcome (enviar_dados_para_api w df) with
     | Normal _ => [ev_concluido]
     | Raise _ => []
     end)).
  rewrite final_tables_app, (final_tables_map_main _ (enviar_no_write w df)).
  destruct (outcome (enviar_dados_para_api w df)); reflexivity.
Qed.

Lemma final_tables_main (w : World) cat :
  final_tables (trace (main_on cat w)) = [] \/
  (successes w cat <> [] /\
   final_tables (trace (main_on cat w)) =
   final_tables (trace (main_after_fetch w (successes w cat)))).
Proof.
  destruct (main_cases w cat) as (ts & _ & [(x & E & _)|[(_ & E)|(N & E)]]);
    rewrite E; cbn [trace fst]; [left; reflexivity|left; reflexivity|].
  right. split; [exact N|reflexivity].
Qed.

Lemma final_tables_run (w : World) cat :
  final_tables (trace (main_on cat w)) =
  match snd (run_tasks (fetch_state_data w) (pool_started w) cat) with
  | Raise _ => []
  | Normal results =>
      match keep_non_empty results with
      | [] => []
      | d :: ds => final_tables (trace (main_after_fetch w (d :: ds)))
      end
  end.
Proof.
  destruct (run_tasks (fetch_state_data w) (pool_started w) cat) as [ts r] eqn:R.
  rewrite (main_on_run w cat ts r R). cbn [snd].
  destruct r as [results|x]; [|reflexivity].
  destruct (keep_non_empty results) as [|d ds]; reflexivity.
Qed.


(** The catalogue of the service: 27 descriptors, of which Roraima alone
    has no table id. *)
Lemma DADOS_ESTADUAIS_descriptors :
  Forall (fun e => RegionDescriptor e = true) DADOS_ESTADUAIS.
Proof. repeat constructor. Qed.

Lemma DADOS_ESTADUAIS_without_table :
  length DADOS_ESTADUAIS = 27 /\
  List.filter (fun e => negb (has_table e)) DADOS_ESTADUAIS
    = [mk_estado 28 "Roraima" PNone].
Proof. split; [reflexivity|]. vm_compute. reflexivity. Qed.


Lemma sample_catalogue_descriptors :
  Forall (fun e => RegionDescriptor e = true) Sample.catalogue.
Proof. repeat constructor. Qed.

(** C2: when no region of the catalogue succeeds with a non-empty table, the
    run logs the start, runs the pool, logs that nothing was downloaded and
    returns: the normaliser does not run, no snapshot is written and no POST
    is sent. *)
Theorem C2_nothing_to_process (w : World) (cat : list (gmap string pyval)) :
  Forall (fun e => RegionDescriptor e = true) cat ->
  successes w cat = [] ->
  outcome (main_on cat w) = Normal tt /\
  (exists tasks, trace (main_on cat w) = [ev_iniciando; Pool tasks; ev_nenhum]) /\
  existsb is_ToCsv (events_of (trace (main_on cat w))) = false /\
  existsb is_Post (events_of (trace (main_on cat w))) = false /\
  final_tables (trace (main_on cat w)) = [].
Proof.
  intros D S.
  destruct (main_cases w cat) as (ts & Hts & [(e & _ & N)|[(_ & E)|(N & _)]]);
    [contradiction| |contradiction].
  rewrite E. cbn [outcome trace fst snd].
  destruct (workers_no_io ts Hts) as [W1 W2].
  split; [reflexivity|]. split; [exists ts; reflexivity|].
  unfold ev_iniciando, ev_nenhum.
  rewrite events_of_cons_main, events_of_cons_pool. cbn [existsb is_ToCsv is_Post orb].
  rewrite !List.existsb_app, W1, W2. repeat split; reflexivity.
Qed.

Lemma C2_witness :
  successes Sample.world_down Sample.catalogue = [] /\
  outcome (main_on Sample.catalogue Sample.world_down) = Normal tt /\
  final_tables (trace (main_on Sample.catalogue Sample.world_down)) = [].
Proof.
  split; [reflexivity|].
  destruct (C2_nothing_to_process Sample.world_down Sample.catalogue
              sample_catalogue_descriptors eq_refl) as (O & _ & _ & _ & F).
  split; [exact O|exact F].
Defined.

(** C3, as stated, fails: with a full disk the write raises [OSError], the
    exception leaves [main], no POST is sent and no error is logged. *)
Lemma C3_counterexample :
  In (Main (ToCsv OUTPUT_FILENAME Sample.normalized_a (Some Sample.disk_full)))
     (trace (main_on Sample.catalogue Sample.world_disk_full)) /\
  existsb is_Post (events_of (trace (main_on Sample.catalogue Sample.world_disk_full)))
    = false /\
  existsb is_error_log
    (events_of (trace (main_on Sample.catalogue Sample.world_disk_full))) = false /\
  outcome (main_on Sample.catalogue Sample.world_disk_full) = Raise Sample.disk_full.
Proof.
  split; [vm_compute; repeat (first [left; reflexivity | right])|].
  repeat split; vm_compute; reflexivity.
Qed.

(** C3, amended: a failure of the snapshot write ends the run. The exception
    of the write is the outcome of [main], the failed write is the last
    event of the run, and no POST is sent. *)
Theorem C3_write_failure_aborts (w : World) (cat : list (gmap string pyval))
    (path : string) (df : DataFrame) (e : exn) :
  In (Main (ToCsv path df (Some e))) (trace (main_on cat w)) ->
  outcome (main_on cat w) = Raise e /\
  (exists pre, trace (main_on cat w) = pre ++ [Main (ToCsv path df (Some e))]) /\
  existsb is_Post (events_of (trace (main_on cat w))) = false.
Proof.
  intros H.
  destruct (main_cases w cat) as (ts & Hts & [(x & E & _)|[(_ & E)|(N & E)]]);
    rewrite E in H |- *; cbn [trace outcome fst snd] in H |- *.
  1,2: unfold ev_iniciando, ev_nenhum in H; in_head H; contradiction.
  destruct (workers_no_io ts Hts) as [_ W2].
  destruct (main_after_fetch_cases w (successes w cat) N)
    as (raw & _ & [(x & _ & T)|[(df' & x & _ & _ & T)|(df' & _ & _ & T)]]);
    rewrite T in H |- *; cbn [trace outcome fst snd] in H |- *;
    unfold ev_iniciando, ev_consolidando, ev_aplicando, ev_salvo in H.
  - in_head H. contradiction.
  - in_head H; [|contradiction]. injection H as <- <- <-.
    split; [reflexivity|]. split.
    + exists [ev_iniciando; Pool ts; ev_consolidando; ev_aplicando]. reflexivity.
    + unfold ev_iniciando, ev_consolidando, ev_aplicando.
      rewrite events_of_cons_main, events_of_cons_pool.
      cbn [existsb is_Post orb]. rewrite List.existsb_app, W2. reflexivity.
  - exfalso. in_head H. apply List.in_app_or in H as [H|H].
    + apply in_map_main in H.
      pose proof (existsb_false_In _ _ _ (enviar_no_write w df') H) as X.
      discriminate X.
    + destruct (outcome (enviar_dados_para_api w df')); unfold ev_concluido in H;
        in_head H; contradiction.
Qed.

Lemma C3_witness :
  In (Main (ToCsv OUTPUT_FILENAME Sample.normalized_a (Some Sample.disk_full)))
     (trace (main_on Sample.catalogue Sample.world_disk_full)) /\
  outcome (main_on Sample.catalogue Sample.world_disk_full) = Raise Sample.disk_full.
Proof.
  assert (H : In (Main (ToCsv OUTPUT_FILENAME Sample.normalized_a
                          (Some Sample.disk_full)))
                 (trace (main_on Sample.catalogue Sample.world_disk_full))).
  { vm_compute. repeat (first [left; reflexivity | right]). }
  split; [exact H|].
  exact (proj1 (C3_write_failure_aborts _ _ _ _ _ H)).
Defined.

(** C7: when the POST is answered with a 4xx/5xx status, the snapshot was
    written, without error, earlier in the run; the POST carries the records
    of the written table; nothing is written after it; the failure is logged
    as an error; and the run goes on to its last log line and returns. *)
Theorem C7_write_precedes_sync (w : World) (cat : list (gmap string pyval))
    (url : string) (payload : list (list (label * cell))) (tm status : Z)
    (text : string) :
  In (Main (Post url payload tm (HttpResponse status text))) (trace (main_on cat w)) ->
  (400 <= status < 600)%Z ->
  exists pre mid post df,
    trace (main_on cat w) =
      pre ++ Main (ToCsv OUTPUT_FILENAME df None) :: mid
          ++ Main (Post url payload tm (HttpResponse status text)) :: post /\
    payload = to_dict_records df /\
    existsb is_Post (events_of (pre ++ mid)) = false /\
    existsb is_ToCsv (events_of (mid ++ post)) = false /\
    existsb is_error_log (events_of post) = true /\
    (exists post', post = post' ++ [ev_concluido]) /\
    outcome (main_on cat w) = Normal tt.
Proof.
  intros H R.
  destruct (main_cases w cat) as (ts & Hts & [(x & E & _)|[(_ & E)|(N & E)]]);
    rewrite E in H |- *; cbn [trace outcome fst snd] in H |- *.
  1,2: unfold ev_iniciando, ev_nenhum in H; in_head H; contradiction.
  destruct (workers_no_io ts Hts) as [_ W2].
  destruct (main_after_fetch_cases w (successes w cat) N)
    as (raw & _ & [(x & _ & T)|[(df & x & _ & _ & T)|(df & _ & _ & T)]]);
    rewrite T in H |- *; cbn [trace outcome fst snd] in H |- *;
    unfold ev_iniciando, ev_consolidando, ev_aplicando, ev_salvo in H.
  1,2: in_head H; contradiction.
  in_head H. apply List.in_app_or in H as [H|H].
  2:{ destruct (outcome (enviar_dados_para_api w df)); unfold ev_concluido in H;
      in_head H; contradiction. }
  apply in_map_main in H.
  destruct (enviar_cases w df) as [(_ & m & Q)|(_ & m & rest & r & Q & L & P)];
    rewrite Q in H |- *; cbn [trace outcome fst snd] in H |- *.
  { in_head H. contradiction. }
  in_head H.
  2:{ pose proof (existsb_false_In _ _ _ (logs_no_post rest L) H) as X. discriminate X. }
  injection H as <- <- <- G.
  destruct (P status text G R) as [-> Herr].
  exists [ev_iniciando; Pool ts; ev_consolidando; ev_aplicando],
         [ev_salvo; Main (Log INFO m)],
         (map Main rest ++ [ev_concluido]), df.
  split; [rewrite G; reflexivity|]. split; [reflexivity|].
  split.
  { unfold ev_iniciando, ev_consolidando, ev_aplicando, ev_salvo.
    cbn [app]. rewrite events_of_cons_main, events_of_cons_pool.
    cbn [existsb is_Post orb]. rewrite List.existsb_app, W2. reflexivity. }
  split.
  { unfold ev_salvo, ev_concluido. cbn [app].
    rewrite !events_of_cons_main, events_of_app, events_of_map_main.
    cbn [existsb is_ToCsv orb events_of flat_map app].
    rewrite List.existsb_app. cbn [existsb is_ToCsv orb]. rewrite orb_false_r.
    clear -L. induction rest as [|e rest IH]; [reflexivity|].
    cbn [forallb] in L. apply andb_true_iff in L as [He L].
    cbn [existsb]. rewrite (IH L). destruct e; try discriminate He. reflexivity. }
  split.
  { rewrite events_of_app, events_of_map_main, List.existsb_app, Herr. reflexivity. }
  split; [eexists; reflexivity|reflexivity].
Qed.

Lemma C7_witness :
  In (Main (Post API_URL (to_dict_records Sample.normalized_a) 120
              (HttpResponse 500 "boom")))
     (trace (main_on Sample.catalogue Sample.world_post_500)) /\
  (400 <= 500 < 600)%Z /\
  outcome (main_on Sample.catalogue Sample.world_post_500) = Normal tt.
Proof.
  assert (H : In (Main (Post API_URL (to_dict_records Sample.normalized_a) 120
                          (HttpResponse 500 "boom")))
                 (trace (main_on Sample.catalogue Sample.world_post_500))).
  { vm_compute. repeat (first [left; reflexivity | right]). }
  assert (R : (400 <= 500 < 600)%Z) by lia.
  split; [exact H|]. split; [exact R|].
  destruct (C7_write_precedes_sync _ _ _ _ _ _ _ H R)
    as (pre & mid & post & df & _ & _ & _ & _ & _ & _ & O).
  exact O.
Defined.



Lemma successes_outcomes (w1 w2 : World) cat :
  (forall e, In e cat ->
     outcome (fetch_state_data w1 e) = outcome (fetch_state_data w2 e)) ->
  successes w1 cat = successes w2 cat.
Proof.
  unfold successes, parsed. induction cat as [|e cat IH]; intros H; [reflexivity|].
  cbn [flat_map]. rewrite (H e (or_introl eq_refl)).
  rewrite (IH (fun x Hx => H x (or_intror Hx))). reflexivity.
Qed.

Lemma sample3_parser_rectangular (post : http_outcome) (started : nat -> bool) :
  parser_rectangular (Sample3.world post started).
Proof.
  intros text df. cbn [read_csv Sample3.world]. unfold Sample3.parse.
  destruct (String.eqb text Sample.body_a); [intros [= <-]; reflexivity|].
  destruct (String.eqb text Sample3.body_d); [|discriminate].
  intros [= <-]. reflexivity.
Qed.

Lemma sample3_catalogue_descriptors :
  Forall (fun e => RegionDescriptor e = true) Sample3.catalogue.
Proof. repeat constructor. Qed.

(** C10: the merge is the concatenation, in the order of the catalogue, of the
    non-empty tables of the regions that succeeded, and the run hands its
    normalisation to the snapshot writer. For a catalogue of descriptors with
    at least one such table, the merge [raw] exists, its records are the
    records of these tables, one table after the other in catalogue order
    (each reindexed to the union of the columns; as they are, when all have
    the same columns), and what the writer receives is exactly the
    normalisation of [raw] (nothing, when the normaliser rejects it). With no
    such table nothing is written. Two runs whose fetches have the same
    outcomes keep the same tables and hand the same table to the writer,
    whatever else differs between them. *)
Theorem C10_merge_order (w1 w2 : World) (cat : list (gmap string pyval)) :
  parser_rectangular w1 ->
  (forall e, In e cat ->
     outcome (fetch_state_data w1 e) = outcome (fetch_state_data w2 e)) ->
  successes w1 cat = successes w2 cat /\
  final_tables (trace (main_on cat w1)) = final_tables (trace (main_on cat w2)) /\
  (Forall (fun e => RegionDescriptor e = true) cat ->
   successes w1 cat <> [] ->
   exists raw,
     concat (successes w1 cat) = Normal raw /\
     to_dict_records raw =
       flat_map (fun d => to_dict_records
                            (reindex (union_labels (successes w1 cat)) d))
                (successes w1 cat) /\
     (forall L, List.NoDup L ->
        Forall (fun d => map fst d = L) (successes w1 cat) ->
        to_dict_records raw = flat_map to_dict_records (successes w1 cat)) /\
     final_tables (trace (main_on cat w1)) =
       match outcome (process_and_clean_data raw) with
       | Normal df => [df]
       | Raise _ => []
       end) /\
  (successes w1 cat = [] -> final_tables (trace (main_on cat w1)) = []) /\
  (forall df, In df (final_tables (trace (main_on cat w1))) ->
     exists raw,
       concat (successes w1 cat) = Normal raw /\
       outcome (process_and_clean_data raw) = Normal df /\
       to_dict_records raw =
         flat_map (fun d => to_dict_records
                              (reindex (union_labels (successes w1 cat)) d))
                  (successes w1 cat) /\
       (forall L, List.NoDup L ->
          Forall (fun d => map fst d = L) (successes w1 cat) ->
          to_dict_records raw = flat_map to_dict_records (successes w1 cat))).
Proof.
  intros PR H. destruct (successes_shape w1 cat PR) as [R Em].
  split; [exact (successes_outcomes w1 w2 cat H)|]. split; [|split; [|split]].
  - rewrite !final_tables_run,
      (run_tasks_outcomes w1 w2 (pool_started w1) (pool_started w2) cat H).
    destruct (snd (run_tasks (fetch_state_data w2) (pool_started w2) cat))
      as [results|x]; [|reflexivity].
    destruct (keep_non_empty results) as [|d ds]; [reflexivity|].
    destruct (final_tables_after w1 (d :: ds)) as (raw1 & C1 & ->); [discriminate|].
    destruct (final_tables_after w2 (d :: ds)) as (raw2 & C2 & ->); [discriminate|].
    rewrite C1 in C2. injection C2 as <-. reflexivity.
  - intros D N.
    destruct (final_tables_after w1 (successes w1 cat) N) as (raw & C & F).
    exists raw. split; [exact C|].
    split; [exact (concat_records _ raw R Em C)|].
    split; [intros L NL FL; exact (concat_records_same L _ raw NL FL R Em C)|].
    destruct (main_cases w1 cat) as (ts & _ & [(x & _ & ND)|[(S0 & _)|(_ & E)]]);
      [contradiction|contradiction|].
    rewrite E. exact F.
  - intros S0.
    destruct (final_tables_main w1 cat) as [E|[N _]]; [exact E|contradiction].
  - intros df Hdf.
    destruct (final_tables_main w1 cat) as [E|[N E]]; rewrite E in Hdf; [contradiction|].
    destruct (final_tables_after w1 (successes w1 cat) N) as (raw & C & F).
    rewrite F in Hdf.
    destruct (outcome (process_and_clean_data raw)) as [df'|x] eqn:P; [|contradiction].
    destruct Hdf as [<-|[]].
    exists raw. split; [exact C|]. split; [exact P|].
    split; [exact (concat_records _ raw R Em C)|].
    intros L NL FL. exact (concat_records_same L _ raw NL FL R Em C).
Qed.

(** Regions A and D both answer with data. The run with a working API and the
    run whose API answers 500 under another schedule hand the same table to
    the writer: the two rows of region A, then the row of region D. *)
Lemma C10_witness :
  parser_rectangular Sample3.world_ok /\
  (forall e, In e Sample3.catalogue ->
     outcome (fetch_state_data Sample3.world_ok e) =
     outcome (fetch_state_data Sample3.world_post_500 e)) /\
  successes Sample3.world_ok Sample3.catalogue = [Sample.table_a; Sample3.table_d] /\
  successes Sample3.world_post_500 Sample3.catalogue
    = [Sample.table_a; Sample3.table_d] /\
  final_tables (trace (main_on Sample3.catalogue Sample3.world_ok))
    = [Sample3.normalized_ad] /\
  final_tables (trace (main_on Sample3.catalogue Sample3.world_post_500))
    = [Sample3.normalized_ad] /\
  to_dict_records Sample3.normalized_ad =
    [[(LStr "cod_aj_apur", Some "AC000001");
      (LStr "descricao", Some "Credito ''especial''");
      (LStr "data_inicio", Some "01012020"); (LStr "data_fim", Some "31129999");
      (LStr "uf", Some "AC")];
     [(LStr "cod_aj_apur", Some "A"); (LStr "descricao", Some "Outros debitos");
      (LStr "data_inicio", Some "01012021"); (LStr "data_fim", Some "31122021");
      (LStr "uf", Some "A")];
     [(LStr "cod_aj_apur", Some "DF000009");
      (LStr "descricao", Some "Estorno de debito");
      (LStr "data_inicio", Some "01072022"); (LStr "data_fim", Some "30062023");
      (LStr "uf", Some "DF")]].
Proof.
  assert (H : forall e, In e Sample3.catalogue ->
     outcome (fetch_state_data Sample3.world_ok e) =
     outcome (fetch_state_data Sample3.world_post_500 e)).
  { intros e [<-|[<-|[<-|[]]]]; reflexivity. }
  destruct (C10_merge_order Sample3.world_ok Sample3.world_post_500
              Sample3.catalogue (sample3_parser_rectangular _ _) H)
    as (S12 & F12 & Merge & _ & _).
  assert (S1 : successes Sample3.world_ok Sample3.catalogue
               = [Sample.table_a; Sample3.table_d])
    by (vm_compute; reflexivity).
  assert (F1 : final_tables (trace (main_on Sample3.catalogue Sample3.world_ok))
               = [Sample3.normalized_ad]).
  { destruct (Merge sample3_catalogue_descriptors) as (raw & C & _ & _ & F).
    - rewrite S1. discriminate.
    - rewrite F. rewrite S1 in C. vm_compute in C. injection C as <-.
      vm_compute. reflexivity. }
  split; [apply sample3_parser_rectangular|]. split; [exact H|].
  split; [exact S1|]. split; [rewrite <- S12; exact S1|].
  split; [exact F1|]. split; [rewrite <- F12; exact F1|].
  vm_compute. reflexivity.
Defined.

(** ** Further properties: the normaliser *)

Lemma prefix_cons a p c s :
  String.prefix (String a p) (String c s) = Ascii.eqb a c && String.prefix p s.
Proof.
  change (String.prefix (String a p) (String c s))
    with (if ascii_dec a c then String.prefix p s else false).
  destruct (ascii_dec a c) as [->|N].
  - rewrite Ascii.eqb_refl. reflexivity.
  - apply Ascii.eqb_neq in N. rewrite N. reflexivity.
Qed.

Lemma unescape_quote s :
  Py.replace "''" "'" (String "'" (String "'" s)) = String "'" (Py.replace "''" "'" s).
Proof.
  unfold Py.replace.
  change (Py.replace_from "''" "'" (String "'" (String "'" s)) 0)
    with (if String.prefix "''" (String "'" (String "'" s))
          then "'" +:+ Py.replace_from "''" "'" (String "'" s) (String.length "''" - 1)
          else String "'" (Py.replace_from "''" "'" (String "'" s) 0)).
  rewrite !prefix_cons, prefix_empty. reflexivity.
Qed.

Lemma unescape_other c s :
  Ascii.eqb "'" c = false ->
  Py.replace "''" "'" (String c s) = String c (Py.replace "''" "'" s).
Proof.
  intros H. unfold Py.replace.
  change (Py.replace_from "''" "'" (String c s) 0)
    with (if String.prefix "''" (String c s)
          then "'" +:+ Py.replace_from "''" "'" s (String.length "''" - 1)
          else String c (Py.replace_from "''" "'" s 0)).
  rewrite prefix_cons, H. reflexivity.
Qed.

(** Halving the doubled quotes gives the string back. *)
Lemma escape_unescape s : Py.replace "''" "'" (Py.replace "'" "''" s) = s.
Proof.
  induction s as [|c s IH]; [reflexivity|].
  rewrite escape_step. destruct (Ascii.eqb "'" c) eqn:E.
  - apply Ascii.eqb_eq in E as <-. rewrite unescape_quote, IH. reflexivity.
  - rewrite (unescape_other c _ E), IH. reflexivity.
Qed.

Lemma escape_count s :
  Py.count_char "'" (Py.replace "'" "''" s) = 2 * Py.count_char "'" s.
Proof.
  induction s as [|c s IH]; [reflexivity|].
  rewrite escape_step. cbn [Py.count_char].
  destruct (Ascii.eqb "'" c) eqn:E; cbn [Py.count_char]; rewrite ?E, IH.
  - change (Ascii.eqb "'" "'") with true. cbn iota. lia.
  - lia.
Qed.

Lemma nth_option_map {A B} (f : A -> B) (l : list (option A)) i :
  nth i (map (option_map f) l) None = option_map f (nth i l None).
Proof. exact (List.map_nth (option_map f) l None i). Qed.

Lemma process_width_msg df :
  length df <> 4 ->
  outcome (process_and_clean_data df) =
    Raise (Exn ValueError
             ("Length mismatch: Expected axis has " +:+ pretty (length df)
              +:+ " elements, new values have 4 elements") None).
Proof.
  intros N. unfold process_and_clean_data, set_columns.
  destruct (Nat.eqb_spec (length COLUNAS) (length df)) as [E|E].
  - exfalso. apply N. rewrite <- E. reflexivity.
  - reflexivity.
Qed.

Lemma process_not_empty raw df :
  outcome (process_and_clean_data raw) = Normal df ->
  empty raw = false -> empty df = false.
Proof.
  intros H.
  destruct (process_inv raw df H) as (l0 & c0 & l1 & c1 & l2 & c2 & l3 & c3 & ->).
  rewrite process_four in H. injection H as <-. intros E. exact E.
Qed.

Lemma process_rectangular raw df :
  outcome (process_and_clean_data raw) = Normal df ->
  rectangular raw = true -> rectangular df = true.
Proof.
  intros H.
  destruct (process_inv raw df H) as (l0 & c0 & l1 & c1 & l2 & c2 & l3 & c3 & ->).
  rewrite process_four in H. injection H as <-.
  unfold rectangular. cbn [forallb snd len].
  unfold replace_values, fillna, str_replace, str_slice_to.
  rewrite !List.length_map. intros R.
  apply andb_true_iff in R as [R0 R]. apply andb_true_iff in R as [R1 R].
  apply andb_true_iff in R as [R2 R]. apply andb_true_iff in R as [R3 _].
  unfold Series, cell in *. rewrite R0, R1, R2, R3. reflexivity.
Qed.

Lemma process_columns raw df :
  outcome (process_and_clean_data raw) = Normal df -> map fst df = NORMALIZED_COLUMNS.
Proof.
  intros H.
  destruct (process_inv raw df H) as (l0 & c0 & l1 & c1 & l2 & c2 & l3 & c3 & ->).
  rewrite process_four in H. injection H as <-. reflexivity.
Qed.

(** X1: in every record of the normaliser's output [descricao] is the cell of
    the second input column with each single quote doubled: twice as many
    quotes, one more character per quote, and replacing [''] by ['] gives
    the input back. A missing description stays missing. *)
Theorem X1_descricao_quotes_doubled (df out : DataFrame) :
  outcome (process_and_clean_data df) = Normal out ->
  exists l raw, nth_error df 1 = Some (l, raw) /\
  forall i,
    field (LStr "descricao") (row_at i out)
      = Some (option_map (Py.replace "'" "''") (nth i raw None)) /\
    forall s, nth i raw None = Some s ->
      exists d,
        field (LStr "descricao") (row_at i out) = Some (Some d) /\
        Py.count_char "'" d = 2 * Py.count_char "'" s /\
        String.length d = String.length s + Py.count_char "'" s /\
        Py.replace "''" "'" d = s.
Proof.
  intros H.
  destruct (process_inv df out H) as (l0 & c0 & l1 & c1 & l2 & c2 & l3 & c3 & ->).
  rewrite process_four in H. injection H as <-.
  exists l1, c1. split; [reflexivity|]. intros i.
  assert (F : field (LStr "descricao")
                (row_at i [(LStr "cod_aj_apur", c0);
                           (LStr "descricao", str_replace "'" "''" c1);
                           (LStr "data_inicio", c2);
                           (LStr "data_fim",
                            replace_values ["nan"; "NaN"; EmptyString] DEFAULT_DATA_FIM
                              (fillna DEFAULT_DATA_FIM c3));
                           (LStr "uf", str_slice_to 2 c0)])
              = Some (option_map (Py.replace "'" "''") (nth i c1 None))).
  { cbn. unfold str_replace. rewrite nth_option_map. reflexivity. }
  split; [exact F|]. intros s Hs. rewrite F, Hs. cbn [option_map].
  exists (Py.replace "'" "''" s). split; [reflexivity|].
  split; [apply escape_count|]. split; [apply escape_length|apply escape_unescape].
Qed.

Lemma X1_witness :
  outcome (process_and_clean_data Sample.table_a) = Normal Sample.normalized_a /\
  field (LStr "descricao") (row_at 0 Sample.normalized_a)
    = Some (Some "Credito ''especial''") /\
  Py.replace "''" "'" "Credito ''especial''" = "Credito 'especial'".
Proof.
  split; [reflexivity|].
  destruct (X1_descricao_quotes_doubled Sample.table_a Sample.normalized_a eq_refl)
    as (l & raw & Hraw & Hrows).
  cbn in Hraw. injection Hraw as <- <-.
  destruct (Hrows 0) as [F _].
  split; [rewrite F|]; vm_compute; reflexivity.
Defined.

(** X2: the normaliser returns a table exactly when its input has four
    columns; with any other number it raises the [ValueError] of
    [df.columns = COLUNAS], which names both numbers. Either way it logs its
    one line first and nothing else. *)
Theorem X2_normaliser_needs_four_columns (df : DataFrame) :
  ((exists out, outcome (process_and_clean_data df) = Normal out) <-> length df = 4) /\
  (length df <> 4 ->
   outcome (process_and_clean_data df) =
     Raise (Exn ValueError
              ("Length mismatch: Expected axis has " +:+ pretty (length df)
               +:+ " elements, new values have 4 elements") None)) /\
  trace (process_and_clean_data df) =
    [Log INFO "Aplicando transformações e limpeza nos dados..."].
Proof.
  split; [|split].
  - split.
    + intros [out H].
      destruct (process_inv df out H) as (l0 & c0 & l1 & c1 & l2 & c2 & l3 & c3 & ->).
      reflexivity.
    + intros E.
      destruct df as [|[l0 c0] [|[l1 c1] [|[l2 c2] [|[l3 c3] [|? ?]]]]]; try discriminate E.
      eexists. rewrite process_four. reflexivity.
  - apply process_width_msg.
  - destruct (process_trace df) as [r ->]. reflexivity.
Qed.

(** X3: the normalised table has the five columns [cod_aj_apur],
    [descricao], [data_inicio], [data_fim], [uf], in this order, and as many
    rows as the input; it is rectangular when the input is; the code and the
    start date are the first and third input columns unchanged; and the
    input's own column labels play no part. *)
Theorem X3_normalised_shape (df out : DataFrame) :
  outcome (process_and_clean_data df) = Normal out ->
  map fst out = NORMALIZED_COLUMNS /\
  len out = len df /\
  (rectangular df = true -> rectangular out = true) /\
  lookup_col (LStr "cod_aj_apur") out = option_map snd (nth_error df 0) /\
  lookup_col (LStr "data_inicio") out = option_map snd (nth_error df 2) /\
  (forall df', map snd df' = map snd df ->
     outcome (process_and_clean_data df') = Normal out).
Proof.
  intros H.
  split; [exact (process_columns df out H)|].
  split; [exact (process_len df out H)|].
  split; [exact (process_rectangular df out H)|].
  destruct (process_inv df out H) as (l0 & c0 & l1 & c1 & l2 & c2 & l3 & c3 & ->).
  rewrite process_four in H. injection H as <-.
  split; [reflexivity|]. split; [reflexivity|].
  intros df' E.
  destruct df' as [|[k0 d0] [|[k1 d1] [|[k2 d2] [|[k3 d3] [|? ?]]]]]; try discriminate E.
  cbn in E. injection E as -> -> -> ->. rewrite process_four. reflexivity.
Qed.

Lemma X3_witness :
  outcome (process_and_clean_data Sample.table_a) = Normal Sample.normalized_a /\
  map fst Sample.normalized_a = NORMALIZED_COLUMNS /\
  len Sample.normalized_a = len Sample.table_a.
Proof.
  split; [reflexivity|].
  destruct (X3_normalised_shape Sample.table_a Sample.normalized_a eq_refl)
    as (H1 & H2 & _).
  split; [exact H1|exact H2].
Defined.

(** ** Further properties: the region fetcher *)

Lemma all_space_lstrip s : all_space (Py.lstrip s) = all_space s.
Proof.
  induction s as [|c s IH]; [reflexivity|]. cbn [Py.lstrip all_space].
  destruct (Py.isspace c) eqn:E; [exact IH|]. cbn [all_space]. rewrite E. reflexivity.
Qed.

Lemma rstrip_empty s : String.eqb (Py.rstrip s) EmptyString = all_space s.
Proof.
  induction s as [|c s IH]; [reflexivity|]. cbn [Py.rstrip all_space].
  destruct (Py.rstrip s) as [|a r].
  - rewrite <- IH, andb_true_r. destruct (Py.isspace c); reflexivity.
  - rewrite <- IH, andb_false_r. reflexivity.
Qed.

(** The emptiness test of the fetcher holds exactly for the bodies made of
    white space. *)
Lemma blank_all_space s : negb (Py.truthy (Py.strip s)) = all_space s.
Proof.
  unfold Py.truthy, Py.strip. rewrite negb_involutive, rstrip_empty.
  apply all_space_lstrip.
Qed.

Lemma isinstance_prefix (e : exn) (u : string) :
  (if isinstance e RequestException
   then "❌ Erro de rede ao buscar dados para " +:+ u +:+ ": " +:+ exn_msg e
   else if isinstance e ParserError
        then "❌ Erro de parsing do CSV para " +:+ u +:+ ": " +:+ exn_msg e
        else "❌ Erro inesperado em " +:+ u +:+ ": " +:+ exn_msg e)
  = fetch_error_prefix (exn_cls e) +:+ u +:+ ": " +:+ exn_msg e.
Proof. destruct e as [[] m r]; reflexivity. Qed.

(** The fetch of a region that has a table id and a package id, case by
    case on what the world answers. *)
Lemma fetch_with_table (w : World) (estado : gmap string pyval) (p : pyval) :
  has_table estado = true ->
  estado !! "idPacote" = Some p ->
  fetch_state_data w estado =
  match requests_get w BASE_URL (id_tabela estado) p REQUEST_TIMEOUT with
  | HttpRaises e =>
      ([fetch_request w estado p;
        Log ERROR (fetch_error_prefix (exn_cls e) +:+ uf_nome estado +:+ ": "
                   +:+ exn_msg e)], Normal None)
  | HttpResponse status text =>
      if error_status status then
        ([fetch_request w estado p;
          Log ERROR (fetch_error_prefix HTTPError +:+ uf_nome estado +:+ ": "
                     +:+ (pretty status +:+ " Error"))], Normal None)
      else if all_space text then
        ([fetch_request w estado p;
          Log WARNING ("Recebida resposta vazia para " +:+ uf_nome estado +:+ ".")],
         Normal None)
      else
        match read_csv w text with
        | Normal df =>
            ([fetch_request w estado p;
              Log INFO ("✅ Sucesso ao processar: " +:+ uf_nome estado)],
             Normal (Some df))
        | Raise e =>
            ([fetch_request w estado p;
              Log ERROR (fetch_error_prefix (exn_cls e) +:+ uf_nome estado +:+ ": "
                         +:+ exn_msg e)], Normal None)
        end
  end.
Proof.
  intros T P. unfold fetch_state_data, has_table in *.
  apply negb_true_iff in T. rewrite T. unfold subscript. rewrite P.
  unfold fetch_request, id_tabela, uf_nome, error_status.
  set (idt := default PNone (estado !! "idTabela")).
  set (uf := py_str (default (PStr "Desconhecido") (estado !! "UF"))).
  unfold http_call, raise_for_status, try_except, bind, emit, raise, ret, lift, logging.
  destruct (requests_get w BASE_URL idt p REQUEST_TIMEOUT) as [e|status text];
    cbn [fst snd app]; cbv beta.
  - rewrite <- isinstance_prefix.
    destruct (isinstance e RequestException);
      [|destruct (isinstance e ParserError);
        [|rewrite isinstance_Exception]]; reflexivity.
  - destruct ((400 <=? status)%Z && (status <? 600)%Z); [reflexivity|].
    cbn [fst snd app]. rewrite blank_all_space.
    destruct (all_space text); [reflexivity|].
    destruct (read_csv w text) as [df|e]; [reflexivity|].
    cbn [fst snd app]; cbv beta. rewrite <- isinstance_prefix.
    destruct (isinstance e RequestException);
      [|destruct (isinstance e ParserError);
        [|rewrite isinstance_Exception]]; reflexivity.
Qed.

Lemma fetch_no_table (w : World) (estado : gmap string pyval) :
  has_table estado = false ->
  fetch_state_data w estado =
  ([Log WARNING ("Ignorando " +:+ uf_nome estado +:+ " (sem idTabela)")], Normal None).
Proof.
  unfold has_table, fetch_state_data. intros H.
  apply negb_false_iff in H. rewrite H. reflexivity.
Qed.

Lemma fetch_raise_inv (w : World) (estado : gmap string pyval) (x : exn) :
  outcome (fetch_state_data w estado) = Raise x ->
  has_table estado = true /\ estado !! "idPacote" = None /\
  x = Exn KeyError "'idPacote'" None.
Proof.
  intros H. destruct (has_table estado) eqn:T.
  - destruct (estado !! "idPacote") as [p|] eqn:P.
    + rewrite (fetch_with_table w estado p T P) in H.
      destruct (requests_get w BASE_URL (id_tabela estado) p REQUEST_TIMEOUT)
        as [e|status text]; [discriminate H|].
      destruct (error_status status); [discriminate H|].
      destruct (all_space text); [discriminate H|].
      destruct (read_csv w text); discriminate H.
    + rewrite (fetch_without_idPacote w estado T P) in H.
      injection H as <-. repeat split.
  - rewrite (fetch_no_table w estado T) in H. discriminate H.
Qed.

(** X4: the fetcher raises in exactly one case, a dictionary with a table id
    and no ["idPacote"] key, and then it raises [KeyError('idPacote')]. *)
Theorem X4_fetch_raises_only_KeyError
    (w : World) (estado : gmap string pyval) (x : exn) :
  outcome (fetch_state_data w estado) = Raise x <->
  has_table estado = true /\ estado !! "idPacote" = None /\
  x = Exn KeyError "'idPacote'" None.
Proof.
  split; [apply fetch_raise_inv|].
  intros (T & P & ->). rewrite (fetch_without_idPacote w estado T P). reflexivity.
Qed.

(** X5: for a region with a table id and a package id the fetcher sends
    exactly one GET, to [BASE_URL], with these two ids and a timeout of 30
    seconds, whatever the answer is: there is no second attempt. *)
Theorem X5_fetch_single_request (w : World) (estado : gmap string pyval) (p : pyval) :
  has_table estado = true ->
  estado !! "idPacote" = Some p ->
  List.filter is_Get (trace (fetch_state_data w estado)) = [fetch_request w estado p].
Proof.
  intros T P. rewrite (fetch_with_table w estado p T P). unfold fetch_request.
  destruct (requests_get w BASE_URL (id_tabela estado) p REQUEST_TIMEOUT)
    as [e|status text]; [reflexivity|].
  destruct (error_status status); [reflexivity|].
  destruct (all_space text); [reflexivity|].
  destruct (read_csv w text); reflexivity.
Qed.

Lemma X5_witness :
  has_table Sample.region_a = true /\
  Sample.region_a !! "idPacote" = Some (PInt 1) /\
  List.filter is_Get (trace (fetch_state_data Sample.world_down Sample.region_a)) =
    [Get BASE_URL (PInt 100) (PInt 1) 30
         (HttpRaises (Exn RequestException "connection refused" None))].
Proof.
  split; [reflexivity|]. split; [reflexivity|].
  rewrite (X5_fetch_single_request Sample.world_down Sample.region_a (PInt 1)
             eq_refl eq_refl).
  reflexivity.
Defined.

(** X6: the fetcher returns a table exactly when the region has a table id
    and a package id, the GET is answered with a status that is not 4xx or
    5xx, the body is not all white space, and the parser returns that
    table. *)
Theorem X6_fetch_succeeds_iff (w : World) (estado : gmap string pyval) (df : DataFrame) :
  outcome (fetch_state_data w estado) = Normal (Some df) <->
  exists p status text,
    has_table estado = true /\
    estado !! "idPacote" = Some p /\
    requests_get w BASE_URL (id_tabela estado) p REQUEST_TIMEOUT
      = HttpResponse status text /\
    error_status status = false /\
    all_space text = false /\
    read_csv w text = Normal df.
Proof.
  split.
  - intros H. destruct (has_table estado) eqn:T.
    2:{ rewrite (fetch_no_table w estado T) in H. discriminate H. }
    destruct (estado !! "idPacote") as [p|] eqn:P.
    2:{ rewrite (fetch_without_idPacote w estado T P) in H. discriminate H. }
    rewrite (fetch_with_table w estado p T P) in H.
    destruct (requests_get w BASE_URL (id_tabela estado) p REQUEST_TIMEOUT)
      as [e|status text] eqn:G; [discriminate H|].
    destruct (error_status status) eqn:S; [discriminate H|].
    destruct (all_space text) eqn:B; [discriminate H|].
    destruct (read_csv w text) as [df'|e] eqn:R; [|discriminate H].
    injection H as <-. exists p, status, text. repeat split; assumption.
  - intros (p & status & text & T & P & G & S & B & R).
    rewrite (fetch_with_table w estado p T P), G, S, B, R. reflexivity.
Qed.

(** X7: a body made of white space only, under a status that is not 4xx or
    5xx, is reported with a warning and gives [None]; the parser's answer
    plays no part. *)
Theorem X7_blank_body_is_skipped (w : World) (estado : gmap string pyval)
    (p : pyval) (status : Z) (text : string) :
  has_table estado = true ->
  estado !! "idPacote" = Some p ->
  requests_get w BASE_URL (id_tabela estado) p REQUEST_TIMEOUT
    = HttpResponse status text ->
  error_status status = false ->
  all_space text = true ->
  Py.strip text = EmptyString /\
  fetch_state_data w estado =
    ([fetch_request w estado p;
      Log WARNING ("Recebida resposta vazia para " +:+ uf_nome estado +:+ ".")],
     Normal None).
Proof.
  intros T P G S B. split.
  - pose proof (blank_all_space text) as H. rewrite B in H.
    unfold Py.truthy in H. rewrite negb_involutive in H.
    apply String.eqb_eq. exact H.
  - rewrite (fetch_with_table w estado p T P), G, S, B. reflexivity.
Qed.

Lemma X7_witness :
  all_space "  " = true /\
  fetch_state_data Sample.world_ok Sample.region_c =
    ([fetch_request Sample.world_ok Sample.region_c (PInt 3);
      Log WARNING "Recebida resposta vazia para Region C."], Normal None).
Proof.
  split; [reflexivity|].
  exact (proj2 (X7_blank_body_is_skipped Sample.world_ok Sample.region_c (PInt 3)
                  200 "  " eq_refl eq_refl eq_refl eq_refl eq_refl)).
Defined.

(** X8: a 4xx or 5xx answer is logged as a network error and gives [None],
    whatever its body holds. *)
Theorem X8_error_status_is_network_failure (w : World) (estado : gmap string pyval)
    (p : pyval) (status : Z) (text : string) :
  has_table estado = true ->
  estado !! "idPacote" = Some p ->
  requests_get w BASE_URL (id_tabela estado) p REQUEST_TIMEOUT
    = HttpResponse status text ->
  (400 <= status < 600)%Z ->
  exists detail,
    fetch_state_data w estado =
      ([fetch_request w estado p;
        Log ERROR ("❌ Erro de rede ao buscar dados para " +:+ uf_nome estado
                   +:+ ": " +:+ detail)],
       Normal None).
Proof.
  intros T P G S. rewrite (fetch_with_table w estado p T P), G.
  assert (E : error_status status = true).
  { unfold error_status. apply andb_true_iff. split;
      [apply Z.leb_le|apply Z.ltb_lt]; lia. }
  rewrite E. eexists. reflexivity.
Qed.

Lemma X8_witness :
  (400 <= 503 < 600)%Z /\
  outcome (fetch_state_data (Sample2.world_status 503 Sample.body_a) Sample.region_a)
    = Normal None /\
  existsb is_error_log
    (trace (fetch_state_data (Sample2.world_status 503 Sample.body_a) Sample.region_a))
    = true.
Proof.
  assert (R : (400 <= 503 < 600)%Z) by lia.
  split; [exact R|].
  destruct (X8_error_status_is_network_failure
              (Sample2.world_status 503 Sample.body_a) Sample.region_a (PInt 1)
              503 Sample.body_a eq_refl eq_refl eq_refl R) as [detail ->].
  split; reflexivity.
Defined.

(** X9: an exception raised by the GET or by the parser gives [None] and one
    error line, which starts as its class decides: network error for the
    [requests] exceptions, parsing error for [ParserError], unexpected error
    for every other class ([EmptyDataError] and [OSError] included), and
    ends with the region's name and the exception's message. *)
Theorem X9_exception_classes (w : World) (estado : gmap string pyval)
    (p : pyval) (e : exn) :
  has_table estado = true ->
  estado !! "idPacote" = Some p ->
  requests_get w BASE_URL (id_tabela estado) p REQUEST_TIMEOUT = HttpRaises e \/
  (exists status text,
     requests_get w BASE_URL (id_tabela estado) p REQUEST_TIMEOUT
       = HttpResponse status text /\
     error_status status = false /\ all_space text = false /\
     read_csv w text = Raise e) ->
  fetch_state_data w estado =
    ([fetch_request w estado p;
      Log ERROR (fetch_error_prefix (exn_cls e) +:+ uf_nome estado +:+ ": "
                 +:+ exn_msg e)],
     Normal None).
Proof.
  intros T P [G|(status & text & G & S & B & R)];
    rewrite (fetch_with_table w estado p T P), G; [reflexivity|].
  rewrite S, B, R. reflexivity.
Qed.

Lemma X9_witness :
  fetch_state_data
    (Sample2.world_parse_raises (Exn EmptyDataError "No columns to parse from file" None))
    Sample.region_a =
  ([Get BASE_URL (PInt 100) (PInt 1) 30 (HttpResponse 200 "versao=1");
    Log ERROR "❌ Erro inesperado em Region A: No columns to parse from file"],
   Normal None).
Proof.
  rewrite (X9_exception_classes
             (Sample2.world_parse_raises
                (Exn EmptyDataError "No columns to parse from file" None))
             Sample.region_a (PInt 1)
             (Exn EmptyDataError "No columns to parse from file" None)
             eq_refl eq_refl).
  - reflexivity.
  - right. exists 200%Z, "versao=1". repeat split; reflexivity.
Defined.

(** ** Further properties: the pool *)

Lemma run_tasks_normal_inv {A B} (f : A -> M event B) (st : nat -> bool)
    xs ts bs :
  run_tasks f st xs = (ts, Normal bs) ->
  ts = map (fun x => fst (f x)) xs /\
  Forall2 (fun x b => snd (f x) = Normal b) xs bs.
Proof.
  revert st ts bs. induction xs as [|x xs IH]; intros st ts bs H.
  - injection H as <- <-. split; [reflexivity|constructor].
  - cbn [run_tasks] in H. destruct (f x) as [t [b|e]] eqn:F; [|discriminate H].
    destruct (run_tasks f (fun n => st (S n)) xs) as [ts' [bs'|e]] eqn:R;
      [|discriminate H].
    injection H as <- <-. destruct (IH _ ts' bs' R) as [-> H2].
    cbn [map]. rewrite F. split; [reflexivity|].
    constructor; [rewrite F; reflexivity|exact H2].
Qed.

(** When the pool raises, the tasks up to the first one that raised ran, and
    of the later ones those the schedule had started. *)
Lemma run_tasks_raise_inv {A B} (f : A -> M event B) (st : nat -> bool)
    xs ts e :
  run_tasks f st xs = (ts, Raise e) ->
  exists pre x post,
    xs = pre ++ x :: post /\
    Forall (fun y => exists b, snd (f y) = Normal b) pre /\
    snd (f x) = Raise e /\
    ts = map (fun y => fst (f y)) (pre ++ [x])
         ++ started_tasks f (fun n => st (length pre + 1 + n)) post.
Proof.
  revert st ts. induction xs as [|x xs IH]; intros st ts H.
  - discriminate H.
  - cbn [run_tasks] in H. destruct (f x) as [t [b|e']] eqn:F.
    + destruct (run_tasks f (fun n => st (S n)) xs) as [ts' [bs'|e']] eqn:R;
        [discriminate H|].
      injection H as <- <-.
      destruct (IH _ ts' R) as (pre & y & post & -> & Hpre & Hy & ->).
      exists (x :: pre), y, post. split; [reflexivity|].
      split; [constructor; [exists b; rewrite F; reflexivity|exact Hpre]|].
      split; [exact Hy|]. cbn [app map]. rewrite F. reflexivity.
    + injection H as <- <-. exists [], x, xs.
      split; [reflexivity|]. split; [constructor|].
      split; [rewrite F; reflexivity|cbn [app map]; rewrite F; reflexivity].
Qed.

(** ** Further properties: the synchroniser *)

Lemma filter_logs (p : event -> bool) (rest : list event) :
  (forall lv m, p (Log lv m) = false) ->
  forallb is_Log rest = true -> List.filter p rest = [].
Proof.
  intros Hp. induction rest as [|e rest IH]; [reflexivity|].
  cbn [forallb List.filter]. intros L. apply andb_true_iff in L as [He L].
  destruct e; try discriminate He. rewrite Hp. exact (IH L).
Qed.

Lemma enviar_trace (w : World) (df : DataFrame) :
  (empty df = true /\ exists m, trace (enviar_dados_para_api w df) = [Log WARNING m]) \/
  (empty df = false /\ exists m rest,
     trace (enviar_dados_para_api w df) = Log INFO m :: sync_request w df :: rest /\
     forallb is_Log rest = true).
Proof.
  destruct (enviar_cases w df) as [(E & m & ->)|(E & m & rest & r & -> & L & _)].
  - left. split; [exact E|]. exists m. reflexivity.
  - right. split; [exact E|]. exists m, rest. split; [reflexivity|exact L].
Qed.

(** X15: a delivery sends exactly one POST, to [API_URL], with the records
    of the table and a timeout of 120 seconds, when the table is not empty,
    and none when it is: there is no second attempt. *)
Theorem X15_one_post_per_delivery (w : World) (df : DataFrame) :
  List.filter is_Post (trace (enviar_dados_para_api w df)) =
  if empty df then [] else [sync_request w df].
Proof.
  destruct (enviar_trace w df) as [(E & m & ->)|(E & m & rest & -> & L)]; rewrite E.
  - reflexivity.
  - cbn [List.filter is_Post sync_request]. unfold sync_request. f_equal.
    apply filter_logs; [reflexivity|exact L].
Qed.

(** How a delivery ends. *)
Lemma enviar_outcome (w : World) (df : DataFrame) :
  outcome (enviar_dados_para_api w df) =
  if empty df then Normal tt else
  match requests_post w API_URL (to_dict_records df) 120 with
  | HttpRaises x => if isinstance x RequestException then Normal tt else Raise x
  | HttpResponse status text =>
      if error_status status then Normal tt else
      match response_json w text with
      | Normal _ => Normal tt
      | Raise x => if isinstance x RequestException then Normal tt else Raise x
      end
  end.
Proof.
  unfold enviar_dados_para_api, error_status.
  destruct (empty df); [reflexivity|].
  unfold http_call, raise_for_status, try_except, bind, emit, raise, ret, lift,
    logging, outcome.
  destruct (requests_post w API_URL (to_dict_records df) 120)
    as [x|status text]; cbn [fst snd app]; cbv beta.
  - destruct (isinstance x RequestException); [|reflexivity].
    destruct (exn_response x); reflexivity.
  - destruct ((400 <=? status)%Z && (status <? 600)%Z); [reflexivity|].
    cbn [fst snd app].
    destruct (response_json w text) as [res|x]; [reflexivity|].
    cbn [fst snd app]; cbv beta.
    destruct (isinstance x RequestException); [|reflexivity].
    destruct (exn_response x); reflexivity.
Qed.


(** ** Further properties: the run *)

Lemma filter_concat {A} (p : A -> bool) (ls : list (list A)) :
  List.filter p (List.concat ls) = List.concat (map (List.filter p) ls).
Proof.
  induction ls as [|l ls IH]; [reflexivity|].
  cbn [List.concat map]. rewrite List.filter_app, IH. reflexivity.
Qed.

Lemma gets_in_fetch (w : World) (e : gmap string pyval) :
  RegionDescriptor e = true ->
  length (List.filter is_Get (trace (fetch_state_data w e))) =
  if has_table e then 1 else 0.
Proof.
  intros D. destruct (descriptor_idPacote e D) as [p P].
  destruct (has_table e) eqn:T.
  - rewrite (fetch_with_table w e (PInt p) T P).
    destruct (requests_get w BASE_URL (id_tabela e) (PInt p) REQUEST_TIMEOUT)
      as [x|status text]; [reflexivity|].
    destruct (error_status status); [reflexivity|].
    destruct (all_space text); [reflexivity|].
    destruct (read_csv w text); reflexivity.
  - rewrite (fetch_no_table w e T). reflexivity.
Qed.

Lemma gets_in_pool (w : World) (cat : list (gmap string pyval)) :
  Forall (fun e => RegionDescriptor e = true) cat ->
  length (List.filter is_Get
            (List.concat (map (fun e => fst (fetch_state_data w e)) cat))) =
  length (List.filter has_table cat).
Proof.
  induction 1 as [|e cat D _ IH]; [reflexivity|].
  cbn [map List.concat List.filter]. rewrite List.filter_app, List.length_app, IH.
  pose proof (gets_in_fetch w e D) as G. unfold trace in G. rewrite G.
  destruct (has_table e); reflexivity.
Qed.

Lemma no_get_in_delivery (w : World) (df : DataFrame) :
  List.filter is_Get (trace (enviar_dados_para_api w df)) = [].
Proof.
  destruct (enviar_trace w df) as [(_ & m & ->)|(_ & m & rest & -> & L)];
    [reflexivity|].
  cbn [List.filter is_Get sync_request]. apply filter_logs; [reflexivity|exact L].
Qed.

Lemma no_get_after_fetch (w : World) (dfs : list DataFrame) :
  dfs <> [] ->
  List.filter is_Get (events_of (trace (main_after_fetch w dfs))) = [].
Proof.
  intros N.
  destruct (main_after_fetch_cases w dfs N)
    as (raw & _ & [(x & _ & ->)|[(df & x & _ & _ & ->)|(df & _ & _ & ->)]]);
    cbn [trace fst]; try reflexivity.
  unfold ev_consolidando, ev_aplicando, ev_salvo.
  rewrite !events_of_cons_main, events_of_app, events_of_map_main.
  cbn [List.filter is_Get]. rewrite List.filter_app, no_get_in_delivery.
  destruct (outcome (enviar_dados_para_api w df)); reflexivity.
Qed.

Lemma gets_in_run (w : World) (cat : list (gmap string pyval)) :
  Forall (fun e => RegionDescriptor e = true) cat ->
  length (List.filter is_Get (events_of (trace (main_on cat w)))) =
  length (List.filter has_table cat).
Proof.
  intros D. destruct (run_tasks_total w (pool_started w) cat D) as [ts R].
  destruct (run_tasks_normal_inv _ _ _ _ _ R) as [-> _].
  rewrite (main_on_run w cat _ _ R), keep_successes.
  destruct (Nat.eqb (length (successes w cat)) 0) eqn:L; cbn [trace fst].
  - unfold ev_iniciando, ev_nenhum.
    rewrite events_of_cons_main, events_of_cons_pool.
    cbn [List.filter is_Get]. rewrite List.filter_app, List.length_app.
    cbn. rewrite Nat.add_0_r. apply gets_in_pool. exact D.
  - unfold ev_iniciando. rewrite events_of_cons_main, events_of_cons_pool.
    cbn [List.filter is_Get]. rewrite List.filter_app, List.length_app.
    rewrite no_get_after_fetch.
    + cbn. rewrite Nat.add_0_r. apply gets_in_pool. exact D.
    + intros E. rewrite E in L. discriminate L.
Qed.

Lemma fetch_phase_passes (w : World) (cat : list (gmap string pyval)) :
  Forall (fun e => RegionDescriptor e = true) cat ->
  exists rest,
    trace (main_on cat w) =
      ev_iniciando :: Pool (map (fun e => trace (fetch_state_data w e)) cat) :: rest /\
    rest <> [].
Proof.
  intros D. destruct (run_tasks_total w (pool_started w) cat D) as [ts R].
  destruct (run_tasks_normal_inv _ _ _ _ _ R) as [-> _].
  rewrite (main_on_run w cat _ _ R), keep_successes.
  destruct (Nat.eqb (length (successes w cat)) 0) eqn:L; cbn [trace fst].
  - exists [ev_nenhum]. split; [reflexivity|discriminate].
  - eexists. split; [reflexivity|].
    assert (N : successes w cat <> []) by (intros E; rewrite E in L; discriminate L).
    destruct (main_after_fetch_cases w _ N)
      as (raw & _ & [(y & _ & ->)|[(df & y & _ & _ & ->)|(df & _ & _ & ->)]]);
      discriminate.
Qed.

Lemma concat_width dfs raw :
  concat dfs = Normal raw -> map fst raw = union_labels dfs.
Proof.
  destruct dfs as [|d dfs]; [discriminate|]. intros [= <-].
  rewrite List.map_map. cbn [fst]. apply List.map_id.
Qed.

Lemma column_sum (l : label) (dfs : list DataFrame) :
  Forall (fun d => rectangular d = true) dfs ->
  length (flat_map (column_or_nan l) dfs) = list_sum (map len dfs).
Proof.
  induction 1 as [|d dfs R _ IH]; [reflexivity|].
  cbn [flat_map map]. rewrite List.length_app, IH, (column_len l d R). reflexivity.
Qed.

Lemma concat_rectangular dfs raw :
  Forall (fun d => rectangular d = true) dfs ->
  concat dfs = Normal raw -> rectangular raw = true.
Proof.
  intros R C. destruct dfs as [|d dfs]; [discriminate C|]. injection C as <-.
  unfold rectangular. apply List.forallb_forall. intros [l s] H.
  apply List.in_map_iff in H as (l' & [= <- <-] & Hl'). cbn [snd].
  apply Nat.eqb_eq.
  change (column_or_nan l' d ++ flat_map (column_or_nan l') dfs)
    with (flat_map (column_or_nan l') (d :: dfs)).
  rewrite (column_sum l' _ R).
  destruct (union_labels (d :: dfs)) as [|l0 L]; [destruct Hl'|].
  cbn [map len].
  change (column_or_nan l0 d ++ flat_map (column_or_nan l0) dfs)
    with (flat_map (column_or_nan l0) (d :: dfs)).
  rewrite (column_sum l0 _ R). reflexivity.
Qed.

Lemma lookup_col_head l s d : lookup_col l ((l, s) :: d) = Some s.
Proof. rewrite lookup_col_cons, (proj2 (label_eqb_eq l l) eq_refl). reflexivity. Qed.

(** The merge of non-empty tables has a row: the first column of the first
    table is the head of the first column of the merge. *)
Lemma concat_not_empty dfs raw :
  dfs <> [] ->
  Forall (fun d => empty d = false) dfs ->
  concat dfs = Normal raw -> empty raw = false.
Proof.
  intros N E C. destruct dfs as [|d dfs]; [contradiction|]. injection C as <-.
  apply List.Forall_cons_iff in E as [Ed _].
  destruct d as [|[l0 s0] d]; [discriminate Ed|].
  unfold empty in Ed. cbn [length len] in Ed.
  destruct s0 as [|c s0]; [discriminate Ed|].
  unfold union_labels. cbn [flat_map map fst app dedup].
  unfold empty. cbn [map length len flat_map].
  apply orb_false_iff. split; [reflexivity|].
  unfold column_or_nan at 1, lookup_col. cbn [List.find fst].
  rewrite (proj2 (label_eqb_eq l0 l0) eq_refl). reflexivity.
Qed.

Lemma successes_not_empty (w : World) cat :
  Forall (fun d => empty d = false) (successes w cat).
Proof.
  apply List.Forall_forall. intros d H. apply successes_In in H as [E _]. exact E.
Qed.

(** The table handed to the writer, when there is one. *)
Lemma final_table_inv (w : World) cat df :
  In df (final_tables (trace (main_on cat w))) ->
  successes w cat <> [] /\
  exists raw, concat (successes w cat) = Normal raw /\
              outcome (process_and_clean_data raw) = Normal df.
Proof.
  intros H.
  destruct (final_tables_main w cat) as [E|[N E]]; rewrite E in H; [contradiction|].
  destruct (final_tables_after w (successes w cat) N) as (raw & C & F).
  rewrite F in H.
  destruct (outcome (process_and_clean_data raw)) as [df'|x] eqn:P; [|contradiction].
  destruct H as [<-|[]]. split; [exact N|]. exists raw. split; [exact C|exact P].
Qed.

Lemma existsb_false_filter {A} (p : A -> bool) (l : list A) :
  existsb p l = false -> List.filter p l = [].
Proof.
  induction l as [|a l IH]; [reflexivity|]. cbn [existsb List.filter].
  intros H. apply orb_false_iff in H as [Ha Hl]. rewrite Ha. exact (IH Hl).
Qed.

Lemma in_final_tables path df o t :
  In (Main (ToCsv path df o)) t -> In df (final_tables t).
Proof.
  intros H. unfold final_tables. apply List.in_flat_map.
  exists (Main (ToCsv path df o)). split; [exact H|left; reflexivity].
Qed.

Lemma records_keys df r : In r (to_dict_records df) -> map fst r = map fst df.
Proof.
  unfold to_dict_records, row_at. intros H.
  apply List.in_map_iff in H as (i & <- & _). rewrite List.map_map. reflexivity.
Qed.

Lemma records_not_empty df : empty df = false -> to_dict_records df <> [].
Proof.
  intros E H. apply (f_equal (@length _)) in H. rewrite len_records in H.
  unfold empty in E. apply orb_false_iff in E as [_ E]. cbn in H.
  rewrite H in E. discriminate E.
Qed.

(** The run in which the snapshot was written without error. *)
Lemma written_run (w : World) cat path df :
  In (Main (ToCsv path df None)) (trace (main_on cat w)) ->
  path = OUTPUT_FILENAME /\
  exists ts,
    Forall (fun t => forallb worker_event t = true) ts /\
    trace (main_on cat w) =
      ev_iniciando :: Pool ts :: ev_consolidando :: ev_aplicando
      :: Main (ToCsv OUTPUT_FILENAME df None) :: ev_salvo
      :: map Main (trace (enviar_dados_para_api w df))
      ++ match outcome (enviar_dados_para_api w df) with
         | Normal _ => [ev_concluido]
         | Raise _ => []
         end /\
    outcome (main_on cat w) =
      match outcome (enviar_dados_para_api w df) with
      | Normal _ => Normal tt
      | Raise e => Raise e
      end.
Proof.
  intros H.
  destruct (main_cases w cat) as (ts & Hts & [(x & E & _)|[(_ & E)|(N & E)]]);
    rewrite E in H |- *; cbn [trace outcome fst snd] in H |- *.
  1,2: unfold ev_iniciando, ev_nenhum in H; in_head H; contradiction.
  destruct (main_after_fetch_cases w (successes w cat) N)
    as (raw & _ & [(x & _ & T)|[(df' & x & _ & _ & T)|(df' & _ & _ & T)]]);
    rewrite T in H |- *; cbn [trace outcome fst snd] in H |- *;
    unfold ev_iniciando, ev_consolidando, ev_aplicando, ev_salvo in H.
  - in_head H. contradiction.
  - in_head H. contradiction.
  - in_head H.
    + injection H as <- <-. split; [reflexivity|]. exists ts.
      split; [exact Hts|]. split; reflexivity.
    + exfalso. apply List.in_app_or in H as [H|H].
      * apply in_map_main in H.
        pose proof (existsb_false_In _ _ _ (enviar_no_write w df') H) as X.
        discriminate X.
      * destruct (outcome (enviar_dados_para_api w df')); unfold ev_concluido in H;
          in_head H; contradiction.
Qed.

(** X11: a catalogue entry with a table id and no ["idPacote"] key ends the
    run in the pool: [main] raises [KeyError('idPacote')], nothing is merged,
    written or sent. *)
Theorem X11_missing_idPacote_aborts (w : World) (cat : list (gmap string pyval)) :
  Exists (fun e => has_table e = true /\ e !! "idPacote" = None) cat ->
  (exists tasks, trace (main_on cat w) = [ev_iniciando; Pool tasks]) /\
  outcome (main_on cat w) = Raise (Exn KeyError "'idPacote'" None) /\
  final_tables (trace (main_on cat w)) = [] /\
  existsb is_Post (events_of (trace (main_on cat w))) = false.
Proof.
  intros Hbad. apply List.Exists_exists in Hbad as (bad & Hin & T & P).
  destruct (run_tasks (fetch_state_data w) (pool_started w) cat) as [ts r] eqn:R.
  assert (Hts : Forall (fun t => forallb worker_event t = true) ts)
    by (eapply run_tasks_workers; exact R).
  rewrite (main_on_run w cat ts r R).
  destruct r as [results|e].
  - exfalso. destruct (run_tasks_normal_inv _ _ _ _ _ R) as [_ F2].
    assert (X : exists b, snd (fetch_state_data w bad) = Normal b).
    { clear -F2 Hin. induction F2 as [|x b xs bs Hx _ IH]; [contradiction|].
      destruct Hin as [<-|Hin]; [exists b; exact Hx|exact (IH Hin)]. }
    destruct X as [b Hb]. rewrite (fetch_without_idPacote w bad T P) in Hb.
    discriminate Hb.
  - destruct (run_tasks_raise_inv _ _ _ _ _ R)
      as (pre & x & post & _ & _ & Hx & _).
    destruct (fetch_raise_inv w x e Hx) as (_ & _ & ->).
    cbn [trace outcome fst snd]. split; [exists ts; reflexivity|].
    split; [reflexivity|]. split; [reflexivity|].
    destruct (workers_no_io ts Hts) as [_ W2].
    unfold ev_iniciando. rewrite events_of_cons_main, events_of_cons_pool.
    cbn [existsb is_Post orb events_of flat_map]. rewrite List.app_nil_r. exact W2.
Qed.

Lemma X11_witness :
  Exists (fun e => has_table e = true /\ e !! "idPacote" = None)
         Sample2.catalogue_bad /\
  outcome (main_on Sample2.catalogue_bad Sample.world_ok) =
    Raise (Exn KeyError "'idPacote'" None).
Proof.
  assert (H : Exists (fun e => has_table e = true /\ e !! "idPacote" = None)
                     Sample2.catalogue_bad).
  { apply List.Exists_cons_tl, List.Exists_cons_hd. split; reflexivity. }
  split; [exact H|].
  exact (proj1 (proj2 (X11_missing_idPacote_aborts Sample.world_ok _ H))).
Defined.



(** X13: when the kept tables have, together, a number of columns other
    than four, the run ends in the normaliser: [main] raises the
    [ValueError] of the length mismatch after the two log lines of the merge
    and of the normaliser, and nothing is written or sent. One region with a
    fifth column is enough. *)
Theorem X13_wrong_width_aborts (w : World) (cat : list (gmap string pyval)) :
  Forall (fun e => RegionDescriptor e = true) cat ->
  successes w cat <> [] ->
  length (union_labels (successes w cat)) <> 4 ->
  (exists tasks, trace (main_on cat w) =
                   [ev_iniciando; Pool tasks; ev_consolidando; ev_aplicando]) /\
  outcome (main_on cat w) =
    Raise (Exn ValueError
             ("Length mismatch: Expected axis has "
              +:+ pretty (length (union_labels (successes w cat)))
              +:+ " elements, new values have 4 elements") None).
Proof.
  intros D N L.
  destruct (main_cases w cat) as (ts & _ & [(x & _ & ND)|[(S & _)|(_ & E)]]);
    [contradiction|contradiction|].
  rewrite E.
  destruct (main_after_fetch_cases w _ N)
    as (raw & C & [(x & P & ->)|[(df & x & P & _ & _)|(df & P & _ & _)]]).
  - cbn [trace outcome fst snd]. split; [exists ts; reflexivity|].
    assert (W : length raw <> 4).
    { rewrite <- (List.length_map fst), (concat_width _ raw C). exact L. }
    rewrite (process_width_msg raw W) in P. injection P as <-.
    rewrite <- (List.length_map fst raw), (concat_width _ raw C). reflexivity.
  - exfalso. apply L. rewrite <- (concat_width _ raw C), List.length_map.
    destruct (process_inv raw df P) as (l0 & c0 & l1 & c1 & l2 & c2 & l3 & c3 & ->).
    reflexivity.
  - exfalso. apply L. rewrite <- (concat_width _ raw C), List.length_map.
    destruct (process_inv raw df P) as (l0 & c0 & l1 & c1 & l2 & c2 & l3 & c3 & ->).
    reflexivity.
Qed.

Lemma X13_witness :
  successes Sample2.world_wide Sample.catalogue = [Sample.table_a; Sample2.table_wide] /\
  length (union_labels (successes Sample2.world_wide Sample.catalogue)) = 5 /\
  outcome (main_on Sample.catalogue Sample2.world_wide) =
    Raise (Exn ValueError
             "Length mismatch: Expected axis has 5 elements, new values have 4 elements"
             None).
Proof.
  split; [reflexivity|]. split; [reflexivity|].
  destruct (X13_wrong_width_aborts Sample2.world_wide Sample.catalogue
              sample_catalogue_descriptors) as [_ O].
  - discriminate.
  - vm_compute. discriminate.
  - rewrite O. vm_compute. reflexivity.
Defined.

(** X14: the table handed to the snapshot writer has the five normalised
    columns and at least one row, and is rectangular when the parser returns
    rectangular tables. *)
Theorem X14_written_table_is_well_formed
    (w : World) (cat : list (gmap string pyval)) (df : DataFrame) :
  In df (final_tables (trace (main_on cat w))) ->
  map fst df = NORMALIZED_COLUMNS /\
  empty df = false /\
  (parser_rectangular w -> rectangular df = true).
Proof.
  intros H. destruct (final_table_inv w cat df H) as (N & raw & C & P).
  split; [exact (process_columns raw df P)|]. split.
  - apply (process_not_empty raw df P).
    exact (concat_not_empty _ raw N (successes_not_empty w cat) C).
  - intros PR. apply (process_rectangular raw df P).
    destruct (successes_shape w cat PR) as [R _].
    exact (concat_rectangular _ raw R C).
Qed.

Lemma X14_witness :
  In Sample.normalized_a
     (final_tables (trace (main_on Sample.catalogue Sample.world_ok))) /\
  map fst Sample.normalized_a = NORMALIZED_COLUMNS /\
  empty Sample.normalized_a = false.
Proof.
  assert (H : In Sample.normalized_a
                 (final_tables (trace (main_on Sample.catalogue Sample.world_ok)))).
  { vm_compute. left. reflexivity. }
  split; [exact H|].
  destruct (X14_written_table_is_well_formed _ _ _ H) as (C & E & _).
  split; [exact C|exact E].
Defined.

(** X17: in a run that wrote the snapshot without error, exactly one POST is
    sent, and it carries the records of the written table: at least one
    record, each with the five normalised keys. *)
Theorem X17_written_table_is_posted_once
    (w : World) (cat : list (gmap string pyval)) (path : string) (df : DataFrame) :
  In (Main (ToCsv path df None)) (trace (main_on cat w)) ->
  List.filter is_Post (events_of (trace (main_on cat w))) = [sync_request w df] /\
  to_dict_records df <> [] /\
  Forall (fun r => map fst r = NORMALIZED_COLUMNS) (to_dict_records df).
Proof.
  intros H.
  destruct (final_table_inv w cat df (in_final_tables _ _ _ _ H)) as (N & raw & C & P).
  assert (E : empty df = false).
  { apply (process_not_empty raw df P).
    exact (concat_not_empty _ raw N (successes_not_empty w cat) C). }
  destruct (written_run w cat path df H) as (_ & ts & Hts & -> & _).
  split; [|split].
  - destruct (workers_no_io ts Hts) as [_ W2].
    unfold ev_iniciando, ev_consolidando, ev_aplicando, ev_salvo.
    rewrite events_of_cons_main, events_of_cons_pool, !events_of_cons_main,
      events_of_app, events_of_map_main.
    cbn [List.filter is_Post]. rewrite !List.filter_app.
    rewrite (existsb_false_filter _ _ W2). cbn [app List.filter is_Post].
    rewrite List.filter_app.
    destruct (enviar_trace w df) as [(E' & _)|(_ & m & rest & -> & L)];
      [rewrite E in E'; discriminate E'|].
    cbn [List.filter is_Post sync_request].
    rewrite (filter_logs is_Post rest (fun _ _ => eq_refl) L).
    destruct (outcome (enviar_dados_para_api w df)); reflexivity.
  - exact (records_not_empty df E).
  - apply List.Forall_forall. intros r Hr.
    rewrite (records_keys df r Hr). exact (process_columns raw df P).
Qed.

Lemma X17_witness :
  In (Main (ToCsv OUTPUT_FILENAME Sample.normalized_a None))
     (trace (main_on Sample.catalogue Sample.world_post_500)) /\
  List.filter is_Post
    (events_of (trace (main_on Sample.catalogue Sample.world_post_500))) =
    [Post API_URL (to_dict_records Sample.normalized_a) 120 (HttpResponse 500 "boom")].
Proof.
  assert (H : In (Main (ToCsv OUTPUT_FILENAME Sample.normalized_a None))
                 (trace (main_on Sample.catalogue Sample.world_post_500))).
  { vm_compute. repeat (first [left; reflexivity | right]). }
  split; [exact H|].
  rewrite (proj1 (X17_written_table_is_posted_once _ _ _ _ H)). reflexivity.
Defined.

(** X18: whatever the world answers, [main] sends 26 GET requests, one for
    each region of its catalogue but Roraima, which it skips with a warning;
    its pool runs the 27 tasks and never ends the run. *)
Theorem X18_main_sends_26_requests (w : World) :
  length (List.filter is_Get (events_of (trace (main w)))) = 26 /\
  exists rest,
    trace (main w) =
      ev_iniciando
      :: Pool (map (fun e => trace (fetch_state_data w e)) DADOS_ESTADUAIS)
      :: rest /\
    rest <> [] /\
    In [Log WARNING "Ignorando Roraima (sem idTabela)"]
       (map (fun e => trace (fetch_state_data w e)) DADOS_ESTADUAIS).
Proof.
  unfold main. split.
  - rewrite (gets_in_run w DADOS_ESTADUAIS DADOS_ESTADUAIS_descriptors).
    vm_compute. reflexivity.
  - destruct (fetch_phase_passes w DADOS_ESTADUAIS DADOS_ESTADUAIS_descriptors)
      as (rest & E & N).
    exists rest. split; [exact E|]. split; [exact N|].
    apply List.in_map_iff. exists (mk_estado 28 "Roraima" PNone). split.
    + rewrite fetch_no_table; reflexivity.
    + apply (List.nth_error_In DADOS_ESTADUAIS 7). reflexivity.
Qed.

(** X19: a POST is sent only after the snapshot was written without error,
    and it is the delivery of the written table; no POST comes before the
    write and no write after it. *)
Theorem X19_post_only_after_write
    (w : World) (cat : list (gmap string pyval))
    (url : string) (payload : list (list (label * cell))) (tm : Z) (out : http_outcome) :
  In (Main (Post url payload tm out)) (trace (main_on cat w)) ->
  exists pre post df,
    trace (main_on cat w) = pre ++ Main (ToCsv OUTPUT_FILENAME df None) :: post /\
    In (Main (Post url payload tm out)) post /\
    Post url payload tm out = sync_request w df /\
    existsb is_Post (events_of pre) = false /\
    existsb is_ToCsv (events_of post) = false.
Proof.
  intros H.
  destruct (main_cases w cat) as (ts & Hts & [(x & E & _)|[(_ & E)|(N & E)]]);
    rewrite E in H |- *; cbn [trace fst] in H |- *.
  1,2: unfold ev_iniciando, ev_nenhum in H; in_head H; contradiction.
  destruct (workers_no_io ts Hts) as [_ W2].
  destruct (main_after_fetch_cases w (successes w cat) N)
    as (raw & _ & [(x & _ & T)|[(df & x & _ & _ & T)|(df & _ & _ & T)]]);
    rewrite T in H |- *; cbn [trace fst] in H |- *;
    unfold ev_iniciando, ev_consolidando, ev_aplicando, ev_salvo in H.
  1,2: in_head H; contradiction.
  in_head H.
  exists [ev_iniciando; Pool ts; ev_consolidando; ev_aplicando],
         (ev_salvo :: map Main (trace (enviar_dados_para_api w df))
          ++ match outcome (enviar_dados_para_api w df) with
             | Normal _ => [ev_concluido]
             | Raise _ => []
             end), df.
  split; [reflexivity|]. split; [right; exact H|].
  split.
  { apply List.in_app_or in H as [H|H].
    - apply in_map_main in H.
      destruct (enviar_trace w df) as [(_ & m & Q)|(_ & m & rest & Q & L)];
        rewrite Q in H; in_head H; [contradiction|exact (eq_sym H)|].
      pose proof (existsb_false_In _ _ _ (logs_no_post rest L) H) as X. discriminate X.
    - destruct (outcome (enviar_dados_para_api w df)); unfold ev_concluido in H;
        in_head H; contradiction. }
  split.
  { unfold ev_iniciando, ev_consolidando, ev_aplicando.
    rewrite events_of_cons_main, events_of_cons_pool.
    cbn [existsb is_Post orb]. rewrite List.existsb_app, W2. reflexivity. }
  unfold ev_salvo. rewrite events_of_cons_main, events_of_app, events_of_map_main.
  cbn [existsb is_ToCsv orb]. rewrite List.existsb_app, enviar_no_write.
  destruct (outcome (enviar_dados_para_api w df)); reflexivity.
Qed.

Lemma X19_witness :
  In (Main (Post API_URL (to_dict_records Sample.normalized_a) 120
              (HttpResponse 200 "{'ok': True}")))
     (trace (main_on Sample.catalogue Sample.world_ok)) /\
  In (Main (ToCsv OUTPUT_FILENAME Sample.normalized_a None))
     (trace (main_on Sample.catalogue Sample.world_ok)).
Proof.
  assert (H : In (Main (Post API_URL (to_dict_records Sample.normalized_a) 120
                          (HttpResponse 200 "{'ok': True}")))
                 (trace (main_on Sample.catalogue Sample.world_ok))).
  { vm_compute. repeat (first [left; reflexivity | right]). }
  split; [exact H|].
  destruct (X19_post_only_after_write _ _ _ _ _ _ H)
    as (pre & post & df & E & _ & S & _).
  injection S as S. rewrite E. apply List.in_or_app. right. left.
  assert (D : df = Sample.normalized_a).
  { assert (F : In df (final_tables
                         (trace (main_on Sample.catalogue Sample.world_ok)))).
    { rewrite E. eapply in_final_tables. apply List.in_or_app.
      right. left. reflexivity. }
    vm_compute in F. destruct F as [<-|[]]. reflexivity. }
  rewrite D. reflexivity.
Defined.

(** X20: after an error-free write the run ends as the delivery ends. When
    the delivery returns, [main] returns and its last line is the closing
    one; when the delivery raises, which it does only for an exception that
    is not a [RequestException], [main] raises the same exception and the
    run's last events are the delivery's: the closing line is not added. *)
Theorem X20_run_ends_as_delivery_ends
    (w : World) (cat : list (gmap string pyval)) (path : string) (df : DataFrame) :
  In (Main (ToCsv path df None)) (trace (main_on cat w)) ->
  (outcome (enviar_dados_para_api w df) = Normal tt /\
   outcome (main_on cat w) = Normal tt /\
   exists pre, trace (main_on cat w) =
                 pre ++ map Main (trace (enviar_dados_para_api w df))
                     ++ [ev_concluido]) \/
  (exists e,
     outcome (enviar_dados_para_api w df) = Raise e /\
     outcome (main_on cat w) = Raise e /\
     isinstance e RequestException = false /\
     exists pre, trace (main_on cat w) =
                   pre ++ map Main (trace (enviar_dados_para_api w df))).
Proof.
  intros H. destruct (written_run w cat path df H) as (_ & ts & _ & T & O).
  rewrite T, O.
  destruct (outcome (enviar_dados_para_api w df)) as [[]|e] eqn:Q.
  - left. split; [reflexivity|]. split; [reflexivity|].
    exists [ev_iniciando; Pool ts; ev_consolidando; ev_aplicando;
            Main (ToCsv OUTPUT_FILENAME df None); ev_salvo].
    reflexivity.
  - right. exists e. split; [reflexivity|]. split; [reflexivity|]. split.
    + rewrite enviar_outcome in Q.
      destruct (empty df); [discriminate Q|].
      destruct (requests_post w API_URL (to_dict_records df) 120) as [x|status text].
      * destruct (isinstance x RequestException) eqn:I; [discriminate Q|].
        injection Q as <-. exact I.
      * destruct (error_status status); [discriminate Q|].
        destruct (response_json w text) as [res|x]; [discriminate Q|].
        destruct (isinstance x RequestException) eqn:I; [discriminate Q|].
        injection Q as <-. exact I.
    + exists [ev_iniciando; Pool ts; ev_consolidando; ev_aplicando;
              Main (ToCsv OUTPUT_FILENAME df None); ev_salvo].
      rewrite List.app_nil_r. reflexivity.
Qed.

Lemma X20_witness :
  In (Main (ToCsv OUTPUT_FILENAME Sample.normalized_a None))
     (trace (main_on Sample.catalogue Sample2.world_not_json)) /\
  outcome (main_on Sample.catalogue Sample2.world_not_json) = Raise Sample2.not_json.
Proof.
  assert (H : In (Main (ToCsv OUTPUT_FILENAME Sample.normalized_a None))
                 (trace (main_on Sample.catalogue Sample2.world_not_json))).
  { vm_compute. repeat (first [left; reflexivity | right]). }
  split; [exact H|].
  destruct (X20_run_ends_as_delivery_ends _ _ _ _ H)
    as [(Q & _)|(e & Q & O & _)].
  - vm_compute in Q. discriminate Q.
  - rewrite O. rewrite <- Q. vm_compute. reflexivity.
Defined.
